(** * Spatial autocorrelation statistics (gonum stat/spatial)

    A shallow embedding of three revisions of [stat/spatial/spatial.go]:

    - [spatial.go]: engines [GetisOrd] and [Moran] with [Reset], [SetData]
      and [SetLocality] (module [Setters]);
    - the revision whose [Reset] accepts nil parameters (module [NilReset]);
    - the revision with a [weights] parameter and the stateless
      [GlobalMoransI] (module [Weighted]).

    The engine records, the constructors [NewGetisOrd] and [NewMoran] and the
    queries [Len], [Gstar], [I], [E], [Var] and [Z] are the same text in the
    revisions that have them and are embedded once.

    The code is written over [float64].  The embedding is generic in the
    arithmetic (class [Arith]): every operation of the source is kept, with
    its order of evaluation and its association.  The instance the code runs
    on is [float], the kernel's binary64 numbers, which is Go's [float64]
    when no operations are fused.

    The matrix library is outside the package.  What the package reads of a
    dense matrix it holds is modelled from the specification; the two
    functions whose order of addition the specification leaves open, [Sum]
    on a matrix of the caller and [Dot], are the methods of the class
    [Library], and every statement holds for every library within that
    contract. *)

From Stdlib Require Import String.
From Stdlib Require Import List ZArith Lia Bool Arith.
From Stdlib Require Import Floats.
From Stdlib Require Import Permutation.
Import ListNotations.

(** ** Panics *)

(** A Go call either returns or panics with a message. *)
Inductive result (A : Type) : Type :=
| Ok (a : A)
| Panic (msg : string).

Arguments Ok {A} a.
Arguments Panic {A} msg.

Definition bind {A B : Type} (c : result A) (k : A -> result B) : result B :=
  match c with
  | Ok a => k a
  | Panic msg => Panic msg
  end.

Declare Scope result_scope.
Delimit Scope result_scope with result.
Notation "x <- c ;; k" := (bind c (fun x => k))
  (at level 61, c at next level, right associativity) : result_scope.
Notation "' p <- c ;; k" := (bind c (fun x => match x with p => k end))
  (at level 61, p pattern, c at next level, right associativity) : result_scope.

(** The two panics of the package. *)
Definition DimensionMismatch : string := "spatial: data length mismatch".
Definition NotImplemented : string := "spatial: weighted data not yet implemented".

(** Modelled from the spec: the panics of the matrix library (a package
    outside [stat/spatial]) on an index out of range and on vectors of
    different lengths. *)
Definition ErrRowAccess : string := "matrix: row index out of range".
Definition ErrColAccess : string := "matrix: column index out of range".
Definition ErrShape : string := "matrix: dimension mismatch".

(** ** Mutating methods: a state and panic monad

    A method with a pointer receiver runs on the engine it is given and
    either returns or panics; in both cases the engine is left in the state
    the statements executed so far produced. *)
Definition M (St A : Type) : Type := St -> St * result A.

Definition mret {St A : Type} (a : A) : M St A := fun s => (s, Ok a).

Definition mbind {St A B : Type} (c : M St A) (k : A -> M St B) : M St B :=
  fun s =>
    match c s with
    | (s', Ok a) => k a s'
    | (s', Panic msg) => (s', Panic msg)
    end.

Definition panic {St A : Type} (msg : string) : M St A := fun s => (s, Panic msg).

Definition get {St : Type} : M St St := fun s => (s, Ok s).

Definition modify {St : Type} (f : St -> St) : M St unit := fun s => (f s, Ok tt).

Declare Scope method_scope.
Delimit Scope method_scope with method.
Notation "x <- c ;; k" := (mbind c (fun x => k))
  (at level 61, c at next level, right associativity) : method_scope.
Notation "c ;; k" := (mbind c (fun _ => k))
  (at level 61, right associativity) : method_scope.

(** ** Arithmetic *)

(** The operations of [float64] the package uses. [of_int] is the conversion
    [float64(n)] of an [int] and the value of an integer constant; [half] is
    the constant [0.5]. *)
Class Arith (F : Type) : Type := {
  zero : F;
  add : F -> F -> F;
  sub : F -> F -> F;
  mul : F -> F -> F;
  div : F -> F -> F;
  sqrt : F -> F;
  of_int : Z -> F;
  half : F
}.

Declare Scope f64_scope.
Delimit Scope f64_scope with f64.
Notation "x + y" := (add x y) : f64_scope.
Notation "x - y" := (sub x y) : f64_scope.
Notation "x * y" := (mul x y) : f64_scope.
Notation "x / y" := (div x y) : f64_scope.

(** [float64(n)] for a 64-bit [int]: exact up to 2^53, rounded to nearest
    beyond. *)
Definition float_of_int (z : Z) : float :=
  match z with
  | Z0 => 0%float
  | Zpos _ => PrimFloat.of_uint63 (Uint63.of_Z z)
  | Zneg p => (- PrimFloat.of_uint63 (Uint63.of_Z (Zpos p)))%float
  end.

#[global] Instance Arith_float : Arith float := {|
  zero := 0%float;
  add := PrimFloat.add;
  sub := PrimFloat.sub;
  mul := PrimFloat.mul;
  div := PrimFloat.div;
  sqrt := PrimFloat.sqrt;
  of_int := float_of_int;
  half := 0.5%float
|}.

(** ** Go slices *)

(** [for i, x := range l] with the loop state [s] threaded through a body
    that may panic. *)
Fixpoint for_range {A St : Type} (l : list A) (i : nat)
    (body : nat -> A -> St -> result St) (s : St) : result St :=
  match l with
  | [] => Ok s
  | x :: t => bind (body i x s) (for_range t (S i) body)
  end.

(** [copy(dst, src)]: the first [min (len dst) (len src)] elements of [dst]
    are overwritten. *)
Definition copy {A : Type} (dst src : list A) : list A :=
  firstn (length dst) src ++ skipn (length src) dst.

(** [make([]float64, n)] *)
Definition make {F : Type} `{Arith F} (n : nat) : list F := repeat zero n.

(** [s[:0]]: the empty slice over the storage of [s]. *)
Definition reslice0 {A : Type} (s : list A) : list A := firstn 0 s.

(** ** The matrix library and the statistics helper

    The packages [mat64] (later [mat]), [floats] and [stat] are outside
    [stat/spatial]; the definitions of this section follow the contract the
    specification gives for them (dimensions, element access, row views,
    element-wise sum, deep copy, reset, grow and copy; the arithmetic mean).
    On the dense storage of an engine and on a row of it the sum runs over
    the elements in the order of the storage, row by row. *)
Section Substrate.
Context {F : Type} `{Arith F}.
Local Open Scope f64_scope.

(** Modelled from the spec: a value of the interface [mat64.Matrix], with
    [Dims()] and the elements [At(i, j)] returns inside the dimensions. *)
Record Matrix : Type := {
  Dims : nat * nat;
  entry : nat -> nat -> F
}.

(** Modelled from the spec: [a.At(i, j)], which panics outside the
    dimensions of [a]. *)
Definition At (a : Matrix) (i j : nat) : result F :=
  let '(r, c) := Dims a in
  if i <? r then
    if j <? c then Ok (entry a i j) else Panic ErrColAccess
  else Panic ErrRowAccess.

(** Modelled from the spec: [*mat64.Dense], [rows * cols] elements stored
    row by row. *)
Record Dense : Type := {
  rows : nat;
  cols : nat;
  elems : list F
}.

(** Modelled from the spec: [d.Dims()]. *)
Definition Dense_Dims (d : Dense) : nat * nat := (rows d, cols d).

(** Modelled from the spec: a [*mat64.Dense] used as a [mat64.Matrix]. *)
Definition Dense_Matrix (d : Dense) : Matrix := {|
  Dims := Dense_Dims d;
  entry := fun i j => nth (i * cols d + j)%nat (elems d) zero
|}.

(** Modelled from the spec: [d.At(i, j)]. *)
Definition Dense_At (d : Dense) (i j : nat) : result F :=
  At (Dense_Matrix d) i j.

(** Modelled from the spec: dense storage filled with the [r * c] values
    [f i j], row by row. *)
Definition tabulate (r c : nat) (f : nat -> nat -> F) : list F :=
  flat_map (fun i => map (f i) (seq 0 c)) (seq 0 r).

(** Modelled from the spec: [mat64.DenseCopyOf(a)], the deep copy of [a]. *)
Definition DenseCopyOf (a : Matrix) : Dense :=
  let '(r, c) := Dims a in
  {| rows := r; cols := c; elems := tabulate r c (entry a) |}.

(** Modelled from the spec: [d.Reset()], after which the receiver is the
    empty matrix. *)
Definition Dense_Reset (d : Dense) : Dense :=
  {| rows := 0; cols := 0; elems := [] |}.

(** Modelled from the spec: [d.Grow(r, c)], [d] expanded by [r] rows and [c]
    columns; the new elements are zero. *)
Definition Dense_Grow (d : Dense) (r c : nat) : Dense :=
  {| rows := rows d + r;
     cols := cols d + c;
     elems := tabulate (rows d + r) (cols d + c)
                (fun i j =>
                   if (i <? rows d) && (j <? cols d)
                   then entry (Dense_Matrix d) i j else zero) |}.

(** Modelled from the spec: [d.Copy(a)], which copies the elements of [a]
    into [d] over the rows and columns the two have in common; the
    dimensions of [d] stay. *)
Definition Dense_Copy (d : Dense) (a : Matrix) : Dense :=
  let '(ra, ca) := Dims a in
  {| rows := rows d;
     cols := cols d;
     elems := tabulate (rows d) (cols d)
                (fun i j =>
                   if (i <? Nat.min (rows d) ra) && (j <? Nat.min (cols d) ca)
                   then entry a i j else entry (Dense_Matrix d) i j) |}.

(** Modelled from the spec: [mat64.Sum(a)] on dense storage and on a vector:
    the elements added to a running sum in the order of the storage, row by
    row.  (On a matrix of the caller the order is the library's: see
    [mat_Sum] below.) *)
Definition Sum (a : Matrix) : F :=
  let '(r, c) := Dims a in
  fold_left
    (fun sum i => fold_left (fun sum j => sum + entry a i j) (seq 0 c) sum)
    (seq 0 r) zero.

(** Modelled from the spec: [*mat64.Vector], a column of values. *)
Definition Vector : Type := list F.

(** Modelled from the spec: [mat64.NewVector(n, data)], which panics unless
    [data] has [n] elements. *)
Definition NewVector (n : nat) (data : list F) : result Vector :=
  if length data =? n then Ok data else Panic ErrShape.

(** Modelled from the spec: [v.Len()]. *)
Definition Vector_Len (v : Vector) : nat := length v.

(** Modelled from the spec: a [*mat64.Vector] used as a [mat64.Matrix] of one
    column. *)
Definition Vector_Matrix (v : Vector) : Matrix := {|
  Dims := (length v, 1%nat);
  entry := fun i _ => nth i v zero
|}.

(** Modelled from the spec: [d.RowView(i)] for an [int] index, the row [i]
    of [d] as a vector; it panics outside the rows of [d]. *)
Definition Dense_RowView (d : Dense) (i : Z) : result Vector :=
  if (i <? 0)%Z || (Z.of_nat (rows d) <=? i)%Z then Panic ErrRowAccess
  else Ok (firstn (cols d) (skipn (Z.to_nat i * cols d) (elems d))).

(** Modelled from the spec: [floats.Sum(x)], the running sum of [x]. *)
Definition floats_Sum (x : list F) : F := fold_left add x zero.

(** Modelled from the spec: [stat.Mean(x, nil)], the arithmetic mean. *)
Definition Mean (x : list F) : F :=
  floats_Sum x / of_int (Z.of_nat (length x)).

End Substrate.

Arguments Matrix F : clear implicits.
Arguments Dense F : clear implicits.
Arguments Vector F : clear implicits.

(** ** The sums of the library

    The specification says what [Sum] and [Dot] add up, not in which order:
    the order belongs to the library and to the kind of matrix or vector it
    is given.  [summed terms v] holds when [v] is obtained by adding the
    [terms], each one once, and any number of zeros, in some order and some
    grouping. *)
Inductive summed {F : Type} `{Arith F} : list F -> F -> Prop :=
| summed_nil : summed [] zero
| summed_one (t : F) : summed [t] t
| summed_add (l1 l2 : list F) (a b : F) :
    summed l1 a -> summed l2 b -> summed (l1 ++ l2) (a + b)%f64
| summed_perm (l l' : list F) (a : F) :
    Permutation l l' -> summed l a -> summed l' a.

(** The products [a_k * b_k] of two vectors. *)
Definition products {F : Type} `{Arith F} (a b : Vector F) : list F :=
  map (fun ab => (fst ab * snd ab)%f64) (combine a b).

(** Modelled from the spec: the two functions of the matrix library whose
    order of addition the specification leaves open.  [mat_Sum a] is
    [mat.Sum(a)] on a matrix [a] of the caller, the sum of its elements;
    [Dot a b] is [mat64.Dot(a, b)], the sum of the products of the elements,
    which panics on vectors of different lengths. *)
Class Library (F : Type) `{Arith F} : Type := {
  mat_Sum : Matrix F -> F;
  Dot : Vector F -> Vector F -> result F;
  mat_Sum_summed : forall a : Matrix F,
    summed (tabulate (fst (Dims a)) (snd (Dims a)) (entry a)) (mat_Sum a);
  Dot_shape : forall a b : Vector F,
    length a <> length b -> Dot a b = Panic ErrShape;
  Dot_summed : forall a b : Vector F,
    length a = length b ->
    exists v : F, Dot a b = Ok v /\ summed (products a b) v
}.

(** A dot product within the contract: the products added in index order,
    from zero. *)
Definition Dot_in_order {F : Type} `{Arith F} (a b : Vector F) : result F :=
  if length a =? length b
  then Ok (fold_left (fun sum ab => (sum + fst ab * snd ab)%f64)
             (combine a b) zero)
  else Panic ErrShape.

(** A sum within the contract: the elements added column by column, the
    order of the storage behind a transposed view of a dense matrix. *)
Definition Sum_by_columns {F : Type} `{Arith F} (a : Matrix F) : F :=
  let '(r, c) := Dims a in
  fold_left
    (fun sum j => fold_left (fun sum i => (sum + entry a i j)%f64) (seq 0 r) sum)
    (seq 0 c) zero.

(** ** The engines *)
Section Engines.
Context {F : Type} `{Arith F} {L : Library F}.
Local Open Scope f64_scope.
Local Open Scope result_scope.

(** [type GetisOrd struct] *)
Record GetisOrd : Type := {
  g_data : Vector F;
  g_locality : Dense F;
  g_mean : F;
  g_s : F
}.

(** [type Moran struct] *)
Record Moran : Type := {
  m_data : list F;
  m_mean : F;
  m_locality : Dense F
}.

(** [r != len(data) || c != len(data)] *)
Definition mismatch (rc : nat * nat) (n : nat) : bool :=
  negb (fst rc =? n) || negb (snd rc =? n).

(** [var ss float64; for _, v := range data { ss += v * v }] *)
Definition sum_squares (data : list F) : F :=
  fold_left (fun ss v => ss + v * v) data zero.

(** [func NewGetisOrd(data []float64, locality mat64.Matrix) GetisOrd] *)
Definition NewGetisOrd (data : list F) (locality : Matrix F) : result GetisOrd :=
  if mismatch (Dims locality) (length data) then Panic DimensionMismatch else
  let d := copy (make (length data)) data in
  g_data' <- NewVector (length data) d ;;
  let g_locality' := DenseCopyOf locality in
  let g_mean' := Mean data in
  let ss := sum_squares data in
  Ok {| g_data := g_data';
        g_locality := g_locality';
        g_mean := g_mean';
        g_s := ss / of_int (Z.of_nat (length data)) - g_mean' * g_mean' |}.

(** [func (g GetisOrd) Len() int] *)
Definition GetisOrd_Len (g : GetisOrd) : Z := Z.of_nat (Vector_Len (g_data g)).

(** [func (g GetisOrd) Gstar(i int) float64] *)
Definition GetisOrd_Gstar (g : GetisOrd) (i : Z) : result F :=
  wi <- Dense_RowView (g_locality g) i ;;
  let ws := g_mean g * Sum (Vector_Matrix wi) in
  let n := of_int (Z.of_nat (Vector_Len (g_data g))) in
  dot_wi_data <- Dot wi (g_data g) ;;
  let num := dot_wi_data - ws in
  dot_wi_wi <- Dot wi wi ;;
  let den := g_s g * sqrt ((n * dot_wi_wi - ws * ws) / (n - of_int 1)) in
  Ok (num / den).

(** [func NewMoran(data []float64, locality mat64.Matrix) Moran] *)
Definition NewMoran (data : list F) (locality : Matrix F) : result Moran :=
  if mismatch (Dims locality) (length data) then Panic DimensionMismatch else
  let m_data' := copy (make (length data)) data in
  Ok {| m_data := m_data';
        m_mean := Mean m_data';
        m_locality := DenseCopyOf locality |}.

(** [func (m Moran) I() float64] *)
Definition Moran_I (m : Moran) : result F :=
  '(num, den) <-
    for_range (m_data m) 0 (fun i xi '(num, den) =>
      let zi := xi - m_mean m in
      let den := den + zi * zi in
      num <- for_range (m_data m) 0 (fun j xj num =>
               let zj := xj - m_mean m in
               w <- Dense_At (m_locality m) i j ;;
               Ok (num + w * zi * zj)) num ;;
      Ok (num, den)) (zero, zero) ;;
  Ok ((of_int (Z.of_nat (length (m_data m))) * num)
      / (Sum (Dense_Matrix (m_locality m)) * den)).

(** [func (m Moran) E() float64] *)
Definition Moran_E (m : Moran) : F :=
  of_int (-1) / of_int (Z.of_nat (length (m_data m)) - 1).

(** [func (m Moran) Var() float64] *)
Definition Moran_Var (m : Moran) : result F :=
  '(s0, s1, s2, var2, var4) <-
    for_range (m_data m) 0 (fun i v '(s0, s1, s2, var2, var4) =>
      let v := v - m_mean m in
      let v := v * v in
      let var2 := var2 + v in
      let var4 := var4 + v * v in
      '(s0, s1, p2) <-
        for_range (m_data m) 0 (fun j _ '(s0, s1, p2) =>
          wij <- Dense_At (m_locality m) i j ;;
          wji <- Dense_At (m_locality m) j i ;;
          let s0 := s0 + wij in
          let v := wij + wji in
          let s1 := s1 + v * v in
          let p2 := p2 + (wij + wji) in
          Ok (s0, s1, p2)) (s0, s1, zero) ;;
      let s2 := s2 + p2 * p2 in
      Ok (s0, s1, s2, var2, var4)) (zero, zero, zero, zero, zero) ;;
  let s1 := s1 * half in
  let n := of_int (Z.of_nat (length (m_data m))) in
  let a := n * ((n * n - of_int 3 * n + of_int 3) * s1 - n * s2
                + of_int 3 * s0 * s0) in
  let c := (n - of_int 1) * (n - of_int 2) * (n - of_int 3) * s0 * s0 in
  let d := var4 / (var2 * var2) in
  let b := d * ((n * n - n) * s1 - of_int 2 * n * s2 + of_int 6 * s0 * s0) in
  let e := Moran_E m in
  Ok ((a - b) / c - e * e).

(** [func (m Moran) Z() float64] *)
Definition Moran_Z (m : Moran) : result F :=
  i <- Moran_I m ;;
  let e := Moran_E m in
  v <- Moran_Var m ;;
  Ok ((i - e) / sqrt v).

End Engines.

Arguments GetisOrd F : clear implicits.
Arguments Moran F : clear implicits.

(** ** Mutators *)

Section Assignments.
Context {F : Type} `{Arith F}.
Local Open Scope f64_scope.
Local Open Scope method_scope.

Definition lift {St A : Type} (c : result A) : M St A := fun s => (s, c).

(** Assignments to the fields of the receiver. *)
Definition set_g_data (v : Vector F) (g : GetisOrd F) : GetisOrd F :=
  {| g_data := v; g_locality := g_locality g; g_mean := g_mean g; g_s := g_s g |}.
Definition set_g_locality (d : Dense F) (g : GetisOrd F) : GetisOrd F :=
  {| g_data := g_data g; g_locality := d; g_mean := g_mean g; g_s := g_s g |}.
Definition set_g_mean (x : F) (g : GetisOrd F) : GetisOrd F :=
  {| g_data := g_data g; g_locality := g_locality g; g_mean := x; g_s := g_s g |}.
Definition set_g_s (x : F) (g : GetisOrd F) : GetisOrd F :=
  {| g_data := g_data g; g_locality := g_locality g; g_mean := g_mean g; g_s := x |}.

Definition set_m_data (v : list F) (m : Moran F) : Moran F :=
  {| m_data := v; m_mean := m_mean m; m_locality := m_locality m |}.
Definition set_m_mean (x : F) (m : Moran F) : Moran F :=
  {| m_data := m_data m; m_mean := x; m_locality := m_locality m |}.
Definition set_m_locality (d : Dense F) (m : Moran F) : Moran F :=
  {| m_data := m_data m; m_mean := m_mean m; m_locality := d |}.

(** The statements that end the mutators of [GetisOrd]:
    [g.mean = stat.Mean(data, nil)], the sum of squares, and
    [g.s = ss/float64(len(data)) - g.mean*g.mean]. *)
Definition GetisOrd_moments (data : list F) : M (GetisOrd F) unit :=
  modify (set_g_mean (Mean data)) ;;
  let ss := sum_squares data in
  modify (fun g =>
    set_g_s (ss / of_int (Z.of_nat (length data)) - g_mean g * g_mean g) g).

(** [g.locality.Reset(); g.locality = g.locality.Grow(r, c);
    g.locality.Copy(locality)] *)
Definition GetisOrd_regrow (r c : nat) (locality : Matrix F) : M (GetisOrd F) unit :=
  modify (fun g => set_g_locality (Dense_Reset (g_locality g)) g) ;;
  modify (fun g => set_g_locality (Dense_Grow (g_locality g) r c) g) ;;
  modify (fun g => set_g_locality (Dense_Copy (g_locality g) locality) g).

Definition Moran_regrow (r c : nat) (locality : Matrix F) : M (Moran F) unit :=
  modify (fun m => set_m_locality (Dense_Reset (m_locality m)) m) ;;
  modify (fun m => set_m_locality (Dense_Grow (m_locality m) r c) m) ;;
  modify (fun m => set_m_locality (Dense_Copy (m_locality m) locality) m).

End Assignments.

(** *** [spatial.go] *)
Module Setters.
Section Setters.
Context {F : Type} `{Arith F}.
Local Open Scope method_scope.

(** [func (g *GetisOrd) Reset(data []float64, locality mat64.Matrix)] *)
Definition GetisOrd_Reset (data : list F) (locality : Matrix F) : M (GetisOrd F) unit :=
  let '(r, c) := Dims locality in
  if mismatch (r, c) (length data) then panic DimensionMismatch else
  g <- get ;;
  let d := reslice0 (g_data g) ++ data in
  v <- lift (NewVector (length data) d) ;;
  modify (set_g_data v) ;;
  GetisOrd_regrow r c locality ;;
  GetisOrd_moments data.

(** [func (g *GetisOrd) SetData(data []float64)] *)
Definition GetisOrd_SetData (data : list F) : M (GetisOrd F) unit :=
  g <- get ;;
  if mismatch (Dense_Dims (g_locality g)) (length data)
  then panic DimensionMismatch else
  modify (fun g => set_g_data (copy (g_data g) data) g) ;;
  GetisOrd_moments data.

(** [func (g *GetisOrd) SetLocality(locality mat64.Matrix)] *)
Definition GetisOrd_SetLocality (locality : Matrix F) : M (GetisOrd F) unit :=
  g <- get ;;
  if mismatch (Dims locality) (Vector_Len (g_data g))
  then panic DimensionMismatch else
  modify (fun g => set_g_locality (Dense_Copy (g_locality g) locality) g).

(** [func (m *Moran) Reset(data []float64, locality mat64.Matrix)] *)
Definition Moran_Reset (data : list F) (locality : Matrix F) : M (Moran F) unit :=
  let '(r, c) := Dims locality in
  if mismatch (r, c) (length data) then panic DimensionMismatch else
  modify (fun m => set_m_data (reslice0 (m_data m) ++ data) m) ;;
  Moran_regrow r c locality ;;
  modify (fun m => set_m_mean (Mean (m_data m)) m).

(** [func (m *Moran) SetData(data []float64)] *)
Definition Moran_SetData (data : list F) : M (Moran F) unit :=
  m <- get ;;
  if mismatch (Dense_Dims (m_locality m)) (length data)
  then panic DimensionMismatch else
  modify (fun m => set_m_data (copy (m_data m) data) m) ;;
  modify (fun m => set_m_mean (Mean (m_data m)) m).

(** [func (m *Moran) SetLocality(locality mat64.Matrix)] *)
Definition Moran_SetLocality (locality : Matrix F) : M (Moran F) unit :=
  m <- get ;;
  if mismatch (Dims locality) (length (m_data m))
  then panic DimensionMismatch else
  modify (fun m => set_m_locality (Dense_Copy (m_locality m) locality) m).

End Setters.
End Setters.

(** *** The revision whose [Reset] takes nil parameters

    A nil slice and a nil interface value are [None]; an empty slice that is
    not nil is [Some []]. *)
Module NilReset.
Section NilReset.
Context {F : Type} `{Arith F}.
Local Open Scope method_scope.

(** [func (g *GetisOrd) Reset(data []float64, locality mat64.Matrix)] *)
Definition GetisOrd_Reset (data : option (list F)) (locality : option (Matrix F))
    : M (GetisOrd F) unit :=
  match data, locality with
  | None, None => mret tt
  | None, Some locality =>
      g <- get ;;
      if mismatch (Dims locality) (Vector_Len (g_data g))
      then panic DimensionMismatch else
      modify (fun g => set_g_locality (Dense_Copy (g_locality g) locality) g)
  | Some data, None =>
      g <- get ;;
      if mismatch (Dense_Dims (g_locality g)) (length data)
      then panic DimensionMismatch else
      modify (fun g => set_g_data (copy (g_data g) data) g) ;;
      GetisOrd_moments data
  | Some data, Some locality =>
      let '(r, c) := Dims locality in
      if mismatch (r, c) (length data) then panic DimensionMismatch else
      g <- get ;;
      let d := reslice0 (g_data g) ++ data in
      v <- lift (NewVector (length data) d) ;;
      modify (set_g_data v) ;;
      GetisOrd_regrow r c locality ;;
      GetisOrd_moments data
  end.

(** [func (m *Moran) Reset(data []float64, locality mat64.Matrix)] *)
Definition Moran_Reset (data : option (list F)) (locality : option (Matrix F))
    : M (Moran F) unit :=
  match data, locality with
  | None, None => mret tt
  | None, Some locality =>
      m <- get ;;
      if mismatch (Dims locality) (length (m_data m))
      then panic DimensionMismatch else
      modify (fun m => set_m_locality (Dense_Copy (m_locality m) locality) m)
  | Some data, None =>
      m <- get ;;
      if mismatch (Dense_Dims (m_locality m)) (length data)
      then panic DimensionMismatch else
      modify (fun m => set_m_data (copy (m_data m) data) m) ;;
      modify (fun m => set_m_mean (Mean (m_data m)) m)
  | Some data, Some locality =>
      let '(r, c) := Dims locality in
      if mismatch (r, c) (length data) then panic DimensionMismatch else
      modify (fun m => set_m_data (reslice0 (m_data m) ++ data) m) ;;
      Moran_regrow r c locality ;;
      modify (fun m => set_m_mean (Mean (m_data m)) m)
  end.

End NilReset.
End NilReset.

(** *** The revision with per-observation weights and the stateless function *)
Module Weighted.
Section Weighted.
Context {F : Type} `{Arith F} {L : Library F}.
Local Open Scope f64_scope.
Local Open Scope result_scope.

(** [func NewGetisOrd(data, weights []float64, locality mat.Matrix) GetisOrd] *)
Definition NewGetisOrd (data : list F) (weights : option (list F))
    (locality : Matrix F) : result (GetisOrd F) :=
  match weights with
  | Some _ => Panic NotImplemented
  | None =>
      if mismatch (Dims locality) (length data) then Panic DimensionMismatch else
      let d := copy (make (length data)) data in
      g_data' <- NewVector (length data) d ;;
      let g_locality' := DenseCopyOf locality in
      let g_mean' := Mean data in
      let ss := sum_squares data in
      Ok {| g_data := g_data';
            g_locality := g_locality';
            g_mean := g_mean';
            g_s := ss / of_int (Z.of_nat (length data)) - g_mean' * g_mean' |}
  end.

(** [func GlobalMoransI(data, weights []float64, locality mat.Matrix)
    (i, v, z float64)] *)
Definition GlobalMoransI (data : list F) (weights : option (list F))
    (locality : Matrix F) : result (F * F * F) :=
  match weights with
  | Some _ => Panic NotImplemented
  | None =>
      if mismatch (Dims locality) (length data) then Panic DimensionMismatch else
      let mean := Mean data in
      '(num, den) <-
        for_range data 0 (fun i xi '(num, den) =>
          let zi := xi - mean in
          let den := den + zi * zi in
          num <- for_range data 0 (fun j xj num =>
                   let zj := xj - mean in
                   w <- At locality i j ;;
                   Ok (num + w * zi * zj)) num ;;
          Ok (num, den)) (zero, zero) ;;
      let i := (of_int (Z.of_nat (length data)) * num)
               / (mat_Sum locality * den) in
      let e := of_int (-1) / of_int (Z.of_nat (length data) - 1) in
      '(s0, s1, s2, var2, var4) <-
        for_range data 0 (fun i v '(s0, s1, s2, var2, var4) =>
          let v := v - mean in
          let v := v * v in
          let var2 := var2 + v in
          let var4 := var4 + v * v in
          '(s0, s1, p2) <-
            for_range data 0 (fun j _ '(s0, s1, p2) =>
              wij <- At locality i j ;;
              wji <- At locality j i ;;
              let s0 := s0 + wij in
              let v := wij + wji in
              let s1 := s1 + v * v in
              let p2 := p2 + (wij + wji) in
              Ok (s0, s1, p2)) (s0, s1, zero) ;;
          let s2 := s2 + p2 * p2 in
          Ok (s0, s1, s2, var2, var4)) (zero, zero, zero, zero, zero) ;;
      let s1 := s1 * half in
      let n := of_int (Z.of_nat (length data)) in
      let a := n * ((n * n - of_int 3 * n + of_int 3) * s1 - n * s2
                    + of_int 3 * s0 * s0) in
      let c := (n - of_int 1) * (n - of_int 2) * (n - of_int 3) * s0 * s0 in
      let d := var4 / (var2 * var2) in
      let b := d * ((n * n - n) * s1 - of_int 2 * n * s2 + of_int 6 * s0 * s0) in
      let v := (a - b) / c - e * e in
      let z := (i - e) / sqrt v in
      Ok (i, v, z)
  end.

End Weighted.
End Weighted.

(** ** Worked examples from the package's own example tests *)

Definition float_matrix (r c : nat) (xs : list float) : Matrix float :=
  {| Dims := (r, c); entry := fun i j => nth (i * c + j) xs 0%float |}.

(** The path graph on ten points of [ExampleGlobalMoransI_1]. *)
Definition path10 : Matrix float :=
  {| Dims := (10, 10);
     entry := fun i j => if (S i =? j) || (i =? S j) then 1%float else 0%float |}.

(** The window of three of [ExampleGetisOrd]. *)
Definition window10 : Matrix float :=
  {| Dims := (10, 10);
     entry := fun i j =>
       if (i =? j) || (S i =? j) || (i =? S j) then 1%float else 0%float |}.

Definition data10 : list float :=
  [0; 0; 0; 1; 1; 1; 0; 1; 0; 0]%float.

(** ** Loops that do not panic *)

(** The loop [for i, x := range l] with a body that always returns. *)
Definition range_fold_from {A St : Type} (i : nat) (l : list A)
    (f : nat -> A -> St -> St) (s : St) : St :=
  fold_left (fun s kx => f (fst kx) (snd kx) s) (combine (seq i (length l)) l) s.

Definition range_fold {A St : Type} (l : list A) (f : nat -> A -> St -> St)
    (s : St) : St :=
  range_fold_from 0 l f s.

(** ** The two double loops, without the bounds checks

    [I_loop] and [Var_loop] are the loops of [Moran.I] and [Moran.Var] (and of
    [GlobalMoransI]) over a total element function [w]; the checked loops
    return these values when every index is in range. *)
Section Loops.
Context {F : Type} `{Arith F}.
Local Open Scope f64_scope.

Section Bodies.
Variable w : nat -> nat -> F.
Variable x : list F.
Variable mean : F.

Definition I_inner (i : nat) (zi : F) (num : F) : F :=
  range_fold x (fun j xj num => num + w i j * zi * (xj - mean)) num.

Definition I_body (i : nat) (xi : F) (s : F * F) : F * F :=
  let '(num, den) := s in
  let zi := xi - mean in
  let den := den + zi * zi in
  (I_inner i zi num, den).

Definition I_loop : F * F := range_fold x I_body (zero, zero).

Definition Var_inner_body (i j : nat) (s : F * F * F) : F * F * F :=
  let '(s0, s1, p2) := s in
  let wij := w i j in
  let wji := w j i in
  let s0 := s0 + wij in
  let v := wij + wji in
  let s1 := s1 + v * v in
  let p2 := p2 + (wij + wji) in
  (s0, s1, p2).

Definition Var_inner (i : nat) (s : F * F * F) : F * F * F :=
  range_fold x (fun j _ s => Var_inner_body i j s) s.

Definition Var_body (i : nat) (v : F) (s : F * F * F * F * F)
    : F * F * F * F * F :=
  let '(s0, s1, s2, var2, var4) := s in
  let v := v - mean in
  let v := v * v in
  let var2 := var2 + v in
  let var4 := var4 + v * v in
  let '(s0, s1, p2) := Var_inner i (s0, s1, zero) in
  let s2 := s2 + p2 * p2 in
  (s0, s1, s2, var2, var4).

Definition Var_loop : F * F * F * F * F :=
  range_fold x Var_body (zero, zero, zero, zero, zero).

End Bodies.

(** The closing arithmetic of [Moran.Var], from the five sums and [E]. *)
Definition Var_of_sums (n e : F) (s : F * F * F * F * F) : F :=
  let '(s0, s1, s2, var2, var4) := s in
  let s1 := s1 * half in
  let a := n * ((n * n - of_int 3 * n + of_int 3) * s1 - n * s2
                + of_int 3 * s0 * s0) in
  let c := (n - of_int 1) * (n - of_int 2) * (n - of_int 3) * s0 * s0 in
  let d := var4 / (var2 * var2) in
  let b := d * ((n * n - n) * s1 - of_int 2 * n * s2 + of_int 6 * s0 * s0) in
  (a - b) / c - e * e.

End Loops.

(** ** Invariants of the engines *)
Section Invariants.
Context {F : Type} `{Arith F}.
Local Open Scope f64_scope.

(** The storage of a dense matrix holds exactly its elements. *)
Definition Dense_wf (d : Dense F) : Prop :=
  length (elems d) = (rows d * cols d)%nat.

(** The locality matrix is square of the dimension of the data, and the
    cached mean is the mean of the data. *)
Definition Moran_inv (m : Moran F) : Prop :=
  Dense_Dims (m_locality m) = (length (m_data m), length (m_data m))
  /\ Dense_wf (m_locality m)
  /\ m_mean m = Mean (m_data m).

Definition GetisOrd_inv (g : GetisOrd F) : Prop :=
  Dense_Dims (g_locality g) = (length (g_data g), length (g_data g))
  /\ Dense_wf (g_locality g)
  /\ g_mean g = Mean (g_data g)
  /\ g_s g = sum_squares (g_data g) / of_int (Z.of_nat (length (g_data g)))
             - g_mean g * g_mean g.

End Invariants.

(** ** Notions used in the statements *)

(** The data length and the dimensions of the locality disagree. *)
Definition disagree (rc : nat * nat) (n : nat) : Prop :=
  fst rc <> n \/ snd rc <> n.

(** Running a mutator step by step. *)
Ltac run_method :=
  unfold mbind, get, modify, panic, lift, mret,
    GetisOrd_regrow, Moran_regrow, GetisOrd_moments, NewVector,
    set_g_data, set_g_locality, set_g_mean, set_g_s,
    set_m_data, set_m_mean, set_m_locality, reslice0;
  cbn [firstn app fst snd length
       g_data g_locality g_mean g_s m_data m_mean m_locality].

(** ** Engines and matrices of the worked cases *)

(** One observation with a [1 x 1] locality,
    and a [3 x 3] locality that fits neither it nor two observations. *)
Definition one_by_one : Matrix float := float_matrix 1 1 [2%float].
Definition three_by_three : Matrix float := float_matrix 3 3 [].

Definition moran1 : Moran float :=
  {| m_data := [3%float]; m_mean := 3%float;
     m_locality := DenseCopyOf one_by_one |}.

Definition getisord1 : GetisOrd float :=
  {| g_data := [3%float]; g_locality := DenseCopyOf one_by_one;
     g_mean := 3%float; g_s := 0%float |}.

(** The weights argument holds at least one weight. *)
Definition nonempty {A : Type} (weights : option (list A)) : bool :=
  match weights with
  | Some (_ :: _) => true
  | _ => false
  end.

(** Two engines answer every query alike. *)
Definition Moran_same_queries {F : Type} `{Arith F} (m m' : Moran F) : Prop :=
  Moran_I m' = Moran_I m /\ Moran_E m' = Moran_E m
  /\ Moran_Var m' = Moran_Var m /\ Moran_Z m' = Moran_Z m.

Definition GetisOrd_same_queries {F : Type} `{Arith F} {L : Library F}
    (g g' : GetisOrd F) : Prop :=
  GetisOrd_Len g' = GetisOrd_Len g
  /\ forall i : Z, GetisOrd_Gstar g' i = GetisOrd_Gstar g i.

(** The terms of a sum added one after the other, from zero: a sum as the
    code accumulates it. *)
Definition running_sum {F : Type} `{Arith F} (terms : list F) : F :=
  fold_left add terms zero.

(** ** Loops by index *)

(** The loop [for k := 0; k < n; k++] on a state. *)
Fixpoint iter_index {St : Type} (n : nat) (g : nat -> St -> St) (s : St) : St :=
  match n with
  | O => s
  | S k => g k (iter_index k g s)
  end.

(** The engines of the example tests. *)
Definition moran10 : Moran float :=
  {| m_data := data10; m_mean := Mean data10;
     m_locality := DenseCopyOf path10 |}.

Definition getisord10 : GetisOrd float :=
  {| g_data := data10;
     g_locality := DenseCopyOf window10;
     g_mean := Mean data10;
     g_s := (sum_squares data10 / of_int 10 - Mean data10 * Mean data10)%f64 |}.

(** ** Binary64 values *)

(** The mantissa of [1.0]: [2^52], with exponent [-52]. *)
Definition one_mantissa : positive := 4503599627370496.

(** Classes of binary64 values, read off the specification of the format. *)
Definition zero_or_nan (f : float) : Prop :=
  match Prim2SF f with
  | S754_zero _ | S754_nan => True
  | _ => False
  end.

Definition inf_or_nan (f : float) : Prop :=
  match Prim2SF f with
  | S754_infinity _ | S754_nan => True
  | _ => False
  end.

Definition pos_inf_or_nan (f : float) : Prop :=
  match Prim2SF f with
  | S754_infinity false | S754_nan => True
  | _ => False
  end.

(** Infinity or NaN. *)
Definition non_finite (f : float) : bool := is_nan f || is_infinity f.

(** ** Engines the package can produce

    The fields of the engines are unexported: an engine is the result of a
    constructor, or what a mutator leaves (whether it returns or panics) on
    an engine the package produced. *)
Inductive Moran_reachable {F : Type} `{Arith F} : Moran F -> Prop :=
| reach_NewMoran data locality m :
    NewMoran data locality = Ok m -> Moran_reachable m
| reach_Moran_Reset data locality m :
    Moran_reachable m ->
    Moran_reachable (fst (Setters.Moran_Reset data locality m))
| reach_Moran_SetData data m :
    Moran_reachable m ->
    Moran_reachable (fst (Setters.Moran_SetData data m))
| reach_Moran_SetLocality locality m :
    Moran_reachable m ->
    Moran_reachable (fst (Setters.Moran_SetLocality locality m))
| reach_Moran_NilReset data locality m :
    Moran_reachable m ->
    Moran_reachable (fst (NilReset.Moran_Reset data locality m)).

Inductive GetisOrd_reachable {F : Type} `{Arith F} : GetisOrd F -> Prop :=
| reach_NewGetisOrd data locality g :
    NewGetisOrd data locality = Ok g -> GetisOrd_reachable g
| reach_NewGetisOrd_weights data weights locality g :
    Weighted.NewGetisOrd data weights locality = Ok g -> GetisOrd_reachable g
| reach_GetisOrd_Reset data locality g :
    GetisOrd_reachable g ->
    GetisOrd_reachable (fst (Setters.GetisOrd_Reset data locality g))
| reach_GetisOrd_SetData data g :
    GetisOrd_reachable g ->
    GetisOrd_reachable (fst (Setters.GetisOrd_SetData data g))
| reach_GetisOrd_SetLocality locality g :
    GetisOrd_reachable g ->
    GetisOrd_reachable (fst (Setters.GetisOrd_SetLocality locality g))
| reach_GetisOrd_NilReset data locality g :
    GetisOrd_reachable g ->
    GetisOrd_reachable (fst (NilReset.GetisOrd_Reset data locality g)).

(** Three observations on a path, and the same path with the last point cut
    off from the others. *)
Definition path3 : Matrix float :=
  float_matrix 3 3 [0; 1; 0; 1; 0; 1; 0; 1; 0]%float.

Definition lonely3 : Matrix float :=
  float_matrix 3 3 [1; 1; 0; 1; 1; 0; 0; 0; 0]%float.

Definition moran3 : Moran float :=
  {| m_data := [1; 2; 4]%float; m_mean := Mean [1; 2; 4]%float;
     m_locality := DenseCopyOf path3 |}.

(** Four observations and a locality that is not symmetric, with the
    weights 0.1, 0.2, 0.3 and 0.7 rounded to binary64. *)
Definition data4 : list float := [1; 2; 0; 0]%float.

Definition weights4 : Matrix float :=
  float_matrix 4 4
    [0; 0x1.6666666666666p-1; 0x1.999999999999ap-4; 0x1.999999999999ap-3;
     0x1.3333333333333p-2; 0; 0x1.999999999999ap-4; 0x1.6666666666666p-1;
     0; 0x1.6666666666666p-1; 0; 0x1.999999999999ap-3;
     0x1.6666666666666p-1; 0x1.999999999999ap-4; 0; 0]%float.

(** Exposes the binary64 operations behind the methods of [Arith]. *)
Ltac float_ops := cbn [add sub mul div sqrt zero Arith_float] in *.

(** * Lemmas *)

(** ** Loops that do not panic *)

Lemma range_fold_from_cons {A St : Type} (i : nat) (x : A) (l : list A)
    (f : nat -> A -> St -> St) (s : St) :
  range_fold_from i (x :: l) f s = range_fold_from (S i) l f (f i x s).
Proof. reflexivity. Qed.

Lemma for_range_pure {A St : Type} (l : list A)
    (body : nat -> A -> St -> result St) (f : nat -> A -> St -> St) :
  forall (i : nat) (s : St),
    (forall k x s', i <= k < i + length l -> body k x s' = Ok (f k x s')) ->
    for_range l i body s = Ok (range_fold_from i l f s).
Proof.
  induction l as [|x l IH]; intros i s Hbody.
  - reflexivity.
  - cbn [for_range]. rewrite Hbody by (cbn [length]; lia).
    cbn [bind]. rewrite range_fold_from_cons.
    apply IH. intros k y s' Hk. apply Hbody. cbn [length]. lia.
Qed.

Lemma range_fold_from_ext {A St : Type} (l : list A)
    (f g : nat -> A -> St -> St) :
  forall (i : nat) (s : St),
    (forall k x s', i <= k < i + length l -> f k x s' = g k x s') ->
    range_fold_from i l f s = range_fold_from i l g s.
Proof.
  induction l as [|x l IH]; intros i s Hfg.
  - reflexivity.
  - rewrite !range_fold_from_cons.
    rewrite Hfg by (cbn [length]; lia).
    apply IH. intros k y s' Hk. apply Hfg. cbn [length]. lia.
Qed.

Lemma range_fold_ext {A St : Type} (l : list A)
    (f g : nat -> A -> St -> St) (s : St) :
  (forall k x s', k < length l -> f k x s' = g k x s') ->
  range_fold l f s = range_fold l g s.
Proof.
  intros Hfg. apply range_fold_from_ext. intros k x s' Hk. apply Hfg. lia.
Qed.

(** ** Facts about the matrix library *)
Section SubstrateFacts.
Context {F : Type} `{Arith F}.

Lemma copy_make (data : list F) : copy (make (length data)) data = data.
Proof.
  unfold copy, make. rewrite repeat_length, firstn_all.
  rewrite skipn_all2 by (rewrite repeat_length; lia).
  apply app_nil_r.
Qed.

Lemma copy_same_length {A : Type} (dst src : list A) :
  length dst = length src -> copy dst src = src.
Proof.
  intros Hlen. unfold copy. rewrite Hlen, firstn_all.
  rewrite skipn_all2 by lia. apply app_nil_r.
Qed.

Lemma length_rows_from (c : nat) (f : nat -> nat -> F) (r a : nat) :
  length (flat_map (fun i => map (f i) (seq 0 c)) (seq a r)) = r * c.
Proof.
  revert a. induction r as [|r IH]; intros a; cbn [seq flat_map].
  - reflexivity.
  - rewrite length_app, length_map, length_seq, IH. reflexivity.
Qed.

Lemma length_tabulate (r c : nat) (f : nat -> nat -> F) :
  length (tabulate r c f) = r * c.
Proof. apply length_rows_from. Qed.

Lemma nth_rows_from (c : nat) (f : nat -> nat -> F) (r : nat) :
  forall a i j, i < r -> j < c ->
    nth (i * c + j) (flat_map (fun i => map (f i) (seq 0 c)) (seq a r)) zero
    = f (a + i) j.
Proof.
  induction r as [|r IH]; intros a i j Hi Hj; [lia|].
  cbn [seq flat_map]. destruct i as [|i].
  - rewrite app_nth1 by (rewrite length_map, length_seq; cbn; lia).
    cbn [Nat.mul Nat.add].
    rewrite (nth_indep _ zero (f a 0)) by (rewrite length_map, length_seq; lia).
    rewrite map_nth, seq_nth by lia. rewrite Nat.add_0_r. reflexivity.
  - rewrite app_nth2 by (rewrite length_map, length_seq; cbn; lia).
    rewrite length_map, length_seq.
    replace (S i * c + j - c) with (i * c + j) by (cbn; lia).
    rewrite IH by lia. f_equal. lia.
Qed.

Lemma nth_tabulate (r c : nat) (f : nat -> nat -> F) (i j : nat) :
  i < r -> j < c -> nth (i * c + j) (tabulate r c f) zero = f i j.
Proof. intros Hi Hj. unfold tabulate. now rewrite nth_rows_from. Qed.

Lemma At_in_range (a : Matrix F) (i j : nat) :
  i < fst (Dims a) -> j < snd (Dims a) -> At a i j = Ok (entry a i j).
Proof.
  unfold At. destruct (Dims a) as [r c]. cbn [fst snd]. intros Hi Hj.
  apply Nat.ltb_lt in Hi, Hj. now rewrite Hi, Hj.
Qed.

Lemma Dims_DenseCopyOf (a : Matrix F) : Dense_Dims (DenseCopyOf a) = Dims a.
Proof. unfold DenseCopyOf. now destruct (Dims a). Qed.

Lemma entry_DenseCopyOf (a : Matrix F) (i j : nat) :
  i < fst (Dims a) -> j < snd (Dims a) ->
  entry (Dense_Matrix (DenseCopyOf a)) i j = entry a i j.
Proof.
  unfold DenseCopyOf. destruct (Dims a) as [r c]. cbn. intros Hi Hj.
  now apply nth_tabulate.
Qed.

End SubstrateFacts.

(** ** The checked loops return the values of the unchecked ones *)
Section LoopFacts.
Context {F : Type} `{Arith F}.
Local Open Scope f64_scope.

Lemma I_loop_ext (w1 w2 : nat -> nat -> F) (x : list F) (mean : F) :
  (forall i j, i < length x -> j < length x -> w1 i j = w2 i j) ->
  I_loop w1 x mean = I_loop w2 x mean.
Proof.
  intros Hw. unfold I_loop. apply range_fold_ext. intros i xi [num den] Hi.
  unfold I_body, I_inner. f_equal.
  apply range_fold_ext. intros j xj num' Hj. now rewrite Hw.
Qed.

Lemma Var_loop_ext (w1 w2 : nat -> nat -> F) (x : list F) (mean : F) :
  (forall i j, i < length x -> j < length x -> w1 i j = w2 i j) ->
  Var_loop w1 x mean = Var_loop w2 x mean.
Proof.
  intros Hw. unfold Var_loop. apply range_fold_ext.
  intros i v [[[[s0 s1] s2] var2] var4] Hi.
  unfold Var_body, Var_inner.
  rewrite (range_fold_ext x (fun j _ s => Var_inner_body w1 i j s)
             (fun j _ s => Var_inner_body w2 i j s)); [reflexivity|].
  intros j xj [[t0 t1] p2] Hj. unfold Var_inner_body.
  now rewrite (Hw i j), (Hw j i).
Qed.

(** The checked loops over a matrix whose dimensions cover the data. *)
Lemma I_for_range (a : Matrix F) (x : list F) (mean : F) :
  Dims a = (length x, length x) ->
  for_range x 0 (fun i xi '(num, den) =>
    let zi := xi - mean in
    let den := den + zi * zi in
    bind (for_range x 0 (fun j xj num =>
            let zj := xj - mean in
            bind (At a i j) (fun w => Ok (num + w * zi * zj))) num)
         (fun num => Ok (num, den))) (zero, zero)
  = Ok (I_loop (entry a) x mean).
Proof.
  intros Hdims. unfold I_loop, range_fold.
  apply for_range_pure. intros i xi [num den] Hi.
  rewrite (for_range_pure x _
             (fun j xj num => num + entry a i j * (xi - mean) * (xj - mean))).
  - reflexivity.
  - intros j xj num' Hj. rewrite At_in_range by (rewrite Hdims; cbn; lia).
    reflexivity.
Qed.

Lemma Var_for_range (a : Matrix F) (x : list F) (mean : F) :
  Dims a = (length x, length x) ->
  for_range x 0 (fun i v '(s0, s1, s2, var2, var4) =>
    let v := v - mean in
    let v := v * v in
    let var2 := var2 + v in
    let var4 := var4 + v * v in
    bind (for_range x 0 (fun j _ '(s0, s1, p2) =>
            bind (At a i j) (fun wij =>
            bind (At a j i) (fun wji =>
            let s0 := s0 + wij in
            let v := wij + wji in
            let s1 := s1 + v * v in
            let p2 := p2 + (wij + wji) in
            Ok (s0, s1, p2)))) (s0, s1, zero))
         (fun '(s0, s1, p2) =>
            let s2 := s2 + p2 * p2 in
            Ok (s0, s1, s2, var2, var4))) (zero, zero, zero, zero, zero)
  = Ok (Var_loop (entry a) x mean).
Proof.
  intros Hdims. unfold Var_loop, range_fold.
  apply for_range_pure. intros i v [[[[s0 s1] s2] var2] var4] Hi.
  rewrite (for_range_pure x _ (fun j _ s => Var_inner_body (entry a) i j s)).
  - cbn [bind]. unfold Var_body, Var_inner, range_fold.
    destruct (range_fold_from 0 x _ (s0, s1, zero)) as [[t0 t1] p2].
    reflexivity.
  - intros j xj [[t0 t1] p2] Hj.
    rewrite !At_in_range by (rewrite Hdims; cbn; lia).
    reflexivity.
Qed.

End LoopFacts.

(** ** The queries of [Moran] and [GlobalMoransI] as unchecked loops *)
Section MoranQueries.
Context {F : Type} `{Arith F} {L : Library F}.
Local Open Scope f64_scope.

Lemma Moran_I_loop (m : Moran F) :
  Dense_Dims (m_locality m) = (length (m_data m), length (m_data m)) ->
  Moran_I m =
  Ok (let '(num, den) :=
        I_loop (entry (Dense_Matrix (m_locality m))) (m_data m) (m_mean m) in
      (of_int (Z.of_nat (length (m_data m))) * num)
      / (Sum (Dense_Matrix (m_locality m)) * den)).
Proof.
  intros Hdims. unfold Moran_I, Dense_At.
  rewrite (I_for_range (Dense_Matrix (m_locality m)) (m_data m) (m_mean m) Hdims).
  cbn [bind]. now destruct (I_loop _ _ _).
Qed.

Lemma Moran_Var_loop (m : Moran F) :
  Dense_Dims (m_locality m) = (length (m_data m), length (m_data m)) ->
  Moran_Var m =
  Ok (Var_of_sums (of_int (Z.of_nat (length (m_data m)))) (Moran_E m)
        (Var_loop (entry (Dense_Matrix (m_locality m))) (m_data m) (m_mean m))).
Proof.
  intros Hdims. unfold Moran_Var, Dense_At.
  rewrite (Var_for_range (Dense_Matrix (m_locality m)) (m_data m) (m_mean m) Hdims).
  cbn [bind]. unfold Var_of_sums.
  now destruct (Var_loop _ _ _) as [[[[s0 s1] s2] var2] var4].
Qed.

Lemma NewMoran_ok (data : list F) (locality : Matrix F) :
  Dims locality = (length data, length data) ->
  NewMoran data locality =
  Ok {| m_data := data; m_mean := Mean data; m_locality := DenseCopyOf locality |}.
Proof.
  intros Hdims. unfold NewMoran, mismatch. rewrite Hdims. cbn [fst snd].
  rewrite Nat.eqb_refl. cbn [negb orb]. now rewrite copy_make.
Qed.

Lemma GlobalMoransI_loop (data : list F) (locality : Matrix F) :
  Dims locality = (length data, length data) ->
  Weighted.GlobalMoransI data None locality =
  Ok (let n := of_int (Z.of_nat (length data)) in
      let e := of_int (-1) / of_int (Z.of_nat (length data) - 1) in
      let '(num, den) := I_loop (entry locality) data (Mean data) in
      let i := (n * num) / (mat_Sum locality * den) in
      let v := Var_of_sums n e (Var_loop (entry locality) data (Mean data)) in
      (i, v, (i - e) / sqrt v)).
Proof.
  intros Hdims. unfold Weighted.GlobalMoransI, mismatch. rewrite Hdims.
  cbn [fst snd]. rewrite Nat.eqb_refl. cbn [negb orb].
  rewrite (I_for_range locality data (Mean data) Hdims). cbn [bind].
  destruct (I_loop _ _ _) as [num den].
  rewrite (Var_for_range locality data (Mean data) Hdims). cbn [bind].
  unfold Var_of_sums.
  now destruct (Var_loop _ _ _) as [[[[s0 s1] s2] var2] var4].
Qed.

End MoranQueries.

(** ** Dimension checks, deep copies and the constructors *)
Section Preservation.
Context {F : Type} `{Arith F}.

Lemma mismatch_true (rc : nat * nat) (n : nat) :
  mismatch rc n = true <-> disagree rc n.
Proof.
  unfold mismatch, disagree.
  rewrite orb_true_iff, !negb_true_iff, !Nat.eqb_neq. reflexivity.
Qed.

Lemma mismatch_false (rc : nat * nat) (n : nat) :
  mismatch rc n = false <-> rc = (n, n).
Proof.
  unfold mismatch. destruct rc as [r c]. cbn [fst snd].
  rewrite orb_false_iff, !negb_false_iff, !Nat.eqb_eq.
  split; [intros [-> ->]; reflexivity | intros [= -> ->]; now split].
Qed.

Lemma tabulate_eq_list (r c : nat) (f : nat -> nat -> F) (l : list F) :
  length l = r * c ->
  (forall i j, i < r -> j < c -> f i j = nth (i * c + j) l zero) ->
  tabulate r c f = l.
Proof.
  intros Hlen Hf. apply (nth_ext _ _ zero zero).
  - now rewrite length_tabulate.
  - rewrite length_tabulate. intros k Hk.
    assert (Hc : c <> 0) by (intros ->; lia).
    assert (Hdiv : k / c < r) by (apply Nat.Div0.div_lt_upper_bound; lia).
    assert (Hmod : k mod c < c) by (now apply Nat.mod_upper_bound).
    rewrite (Nat.div_mod_eq k c) at 1 2.
    replace (c * (k / c) + k mod c) with (k / c * c + k mod c) by lia.
    rewrite nth_tabulate by assumption. now apply Hf.
Qed.

Lemma Dense_wf_DenseCopyOf (a : Matrix F) : Dense_wf (DenseCopyOf a).
Proof.
  unfold Dense_wf, DenseCopyOf. destruct (Dims a) as [r c]. cbn.
  apply length_tabulate.
Qed.

Lemma Dense_Dims_Copy (d : Dense F) (a : Matrix F) :
  Dense_Dims (Dense_Copy d a) = Dense_Dims d.
Proof. unfold Dense_Copy. now destruct (Dims a). Qed.

Lemma Dense_wf_Copy (d : Dense F) (a : Matrix F) : Dense_wf (Dense_Copy d a).
Proof.
  unfold Dense_wf, Dense_Copy. destruct (Dims a). cbn. apply length_tabulate.
Qed.

Lemma Dense_Dims_regrow (d : Dense F) (r c : nat) (a : Matrix F) :
  Dense_Dims (Dense_Copy (Dense_Grow (Dense_Reset d) r c) a) = (r, c).
Proof. now rewrite Dense_Dims_Copy. Qed.

(** Resetting, growing to the dimensions of [a] and copying [a] gives the
    deep copy of [a]. *)
Lemma Dense_regrow_copy (d : Dense F) (a : Matrix F) :
  Dense_Copy (Dense_Grow (Dense_Reset d) (fst (Dims a)) (snd (Dims a))) a
  = DenseCopyOf a.
Proof.
  unfold Dense_Copy, DenseCopyOf. destruct (Dims a) as [r c]. cbn [fst snd].
  cbn [Dense_Grow Dense_Reset rows cols Nat.add]. f_equal.
  apply tabulate_eq_list.
  - apply length_tabulate.
  - intros i j Hi Hj. rewrite nth_tabulate by assumption.
    rewrite !Nat.min_id.
    apply Nat.ltb_lt in Hi, Hj. now rewrite Hi, Hj.
Qed.

(** Copying a matrix of the same dimensions into [d] gives its deep copy. *)
Lemma Dense_Copy_same_dims (d : Dense F) (a : Matrix F) :
  Dims a = Dense_Dims d -> Dense_Copy d a = DenseCopyOf a.
Proof.
  unfold Dense_Copy, DenseCopyOf, Dense_Dims. intros ->. f_equal.
  apply tabulate_eq_list.
  - apply length_tabulate.
  - intros i j Hi Hj. rewrite nth_tabulate by assumption.
    rewrite !Nat.min_id.
    apply Nat.ltb_lt in Hi, Hj. now rewrite Hi, Hj.
Qed.

(** The deep copy of a well-formed dense matrix is the matrix itself. *)
Lemma DenseCopyOf_Dense_Matrix (d : Dense F) :
  Dense_wf d -> DenseCopyOf (Dense_Matrix d) = d.
Proof.
  intros Hwf. destruct d as [r c l]. unfold Dense_wf in Hwf. cbn in Hwf.
  unfold DenseCopyOf. cbn. f_equal. now apply tabulate_eq_list.
Qed.

Lemma NewGetisOrd_ok (data : list F) (locality : Matrix F) :
  Dims locality = (length data, length data) ->
  NewGetisOrd data locality =
  Ok {| g_data := data;
        g_locality := DenseCopyOf locality;
        g_mean := Mean data;
        g_s := (sum_squares data / of_int (Z.of_nat (length data))
                - Mean data * Mean data)%f64 |}.
Proof.
  intros Hdims. unfold NewGetisOrd, mismatch, NewVector. rewrite Hdims.
  cbn [fst snd]. rewrite Nat.eqb_refl. cbn [negb orb].
  rewrite copy_make, Nat.eqb_refl. reflexivity.
Qed.

Lemma NewMoran_inv (data : list F) (locality : Matrix F) (m : Moran F) :
  NewMoran data locality = Ok m -> Moran_inv m.
Proof.
  unfold NewMoran. destruct (mismatch _ _) eqn:Hmis; [discriminate|].
  apply mismatch_false in Hmis. intros [= <-]. rewrite copy_make.
  repeat split; cbn.
  - now rewrite Dims_DenseCopyOf.
  - apply Dense_wf_DenseCopyOf.
Qed.

Lemma NewGetisOrd_inv (data : list F) (locality : Matrix F) (g : GetisOrd F) :
  NewGetisOrd data locality = Ok g -> GetisOrd_inv g.
Proof.
  unfold NewGetisOrd. destruct (mismatch _ _) eqn:Hmis; [discriminate|].
  apply mismatch_false in Hmis. rewrite copy_make. unfold NewVector.
  rewrite Nat.eqb_refl. cbn [bind]. intros [= <-].
  repeat split; cbn.
  - now rewrite Dims_DenseCopyOf.
  - apply Dense_wf_DenseCopyOf.
Qed.

Lemma Weighted_NewGetisOrd_nil (data : list F) (locality : Matrix F) :
  Weighted.NewGetisOrd data None locality = NewGetisOrd data locality.
Proof. reflexivity. Qed.

End Preservation.

(** ** The mutators, step by step *)
Section Mutators.
Context {F : Type} `{Arith F}.

(** What the mutators do once the dimension check has passed. *)
Lemma Setters_Moran_Reset_ok (data : list F) (locality : Matrix F) (m : Moran F) :
  Dims locality = (length data, length data) ->
  Setters.Moran_Reset data locality m =
  ({| m_data := data; m_mean := Mean data; m_locality := DenseCopyOf locality |},
   Ok tt).
Proof.
  intros Hdims. unfold Setters.Moran_Reset.
  rewrite <- (Dense_regrow_copy (m_locality m) locality).
  rewrite Hdims. cbn [fst snd].
  rewrite (proj2 (mismatch_false _ _) eq_refl). now run_method.
Qed.

Lemma NilReset_Moran_Reset_ok (data : list F) (locality : Matrix F) (m : Moran F) :
  Dims locality = (length data, length data) ->
  NilReset.Moran_Reset (Some data) (Some locality) m =
  ({| m_data := data; m_mean := Mean data; m_locality := DenseCopyOf locality |},
   Ok tt).
Proof.
  intros Hdims. unfold NilReset.Moran_Reset.
  rewrite <- (Dense_regrow_copy (m_locality m) locality).
  rewrite Hdims. cbn [fst snd].
  rewrite (proj2 (mismatch_false _ _) eq_refl). now run_method.
Qed.

Lemma Setters_GetisOrd_Reset_ok (data : list F) (locality : Matrix F)
    (g : GetisOrd F) :
  Dims locality = (length data, length data) ->
  Setters.GetisOrd_Reset data locality g =
  ({| g_data := data;
      g_locality := DenseCopyOf locality;
      g_mean := Mean data;
      g_s := (sum_squares data / of_int (Z.of_nat (length data))
              - Mean data * Mean data)%f64 |},
   Ok tt).
Proof.
  intros Hdims. unfold Setters.GetisOrd_Reset.
  rewrite <- (Dense_regrow_copy (g_locality g) locality).
  rewrite Hdims. cbn [fst snd].
  rewrite (proj2 (mismatch_false _ _) eq_refl). run_method.
  now rewrite Nat.eqb_refl.
Qed.

Lemma NilReset_GetisOrd_Reset_ok (data : list F) (locality : Matrix F)
    (g : GetisOrd F) :
  Dims locality = (length data, length data) ->
  NilReset.GetisOrd_Reset (Some data) (Some locality) g =
  ({| g_data := data;
      g_locality := DenseCopyOf locality;
      g_mean := Mean data;
      g_s := (sum_squares data / of_int (Z.of_nat (length data))
              - Mean data * Mean data)%f64 |},
   Ok tt).
Proof.
  intros Hdims. unfold NilReset.GetisOrd_Reset.
  rewrite <- (Dense_regrow_copy (g_locality g) locality).
  rewrite Hdims. cbn [fst snd].
  rewrite (proj2 (mismatch_false _ _) eq_refl). run_method.
  now rewrite Nat.eqb_refl.
Qed.

Lemma Setters_Moran_SetData_ok (data : list F) (m : Moran F) :
  Moran_inv m -> length data = length (m_data m) ->
  Setters.Moran_SetData data m =
  ({| m_data := data; m_mean := Mean data; m_locality := m_locality m |}, Ok tt).
Proof.
  intros (Hdims & _ & _) Hlen. unfold Setters.Moran_SetData. run_method.
  rewrite Hdims, Hlen, (proj2 (mismatch_false _ _) eq_refl). run_method.
  now rewrite copy_same_length by congruence.
Qed.

Lemma Setters_GetisOrd_SetData_ok (data : list F) (g : GetisOrd F) :
  GetisOrd_inv g -> length data = length (g_data g) ->
  Setters.GetisOrd_SetData data g =
  ({| g_data := data;
      g_locality := g_locality g;
      g_mean := Mean data;
      g_s := (sum_squares data / of_int (Z.of_nat (length data))
              - Mean data * Mean data)%f64 |},
   Ok tt).
Proof.
  intros (Hdims & _ & _) Hlen. unfold Setters.GetisOrd_SetData. run_method.
  rewrite Hdims, <- Hlen, (proj2 (mismatch_false _ _) eq_refl). run_method.
  now rewrite copy_same_length by congruence.
Qed.

Lemma Setters_Moran_SetLocality_ok (locality : Matrix F) (m : Moran F) :
  Moran_inv m -> Dims locality = (length (m_data m), length (m_data m)) ->
  Setters.Moran_SetLocality locality m =
  ({| m_data := m_data m; m_mean := m_mean m;
      m_locality := DenseCopyOf locality |}, Ok tt).
Proof.
  intros (Hdims & _ & _) Hloc. unfold Setters.Moran_SetLocality. run_method.
  rewrite Hloc, (proj2 (mismatch_false _ _) eq_refl). run_method.
  now rewrite Dense_Copy_same_dims by congruence.
Qed.

Lemma Setters_GetisOrd_SetLocality_ok (locality : Matrix F) (g : GetisOrd F) :
  GetisOrd_inv g -> Dims locality = (length (g_data g), length (g_data g)) ->
  Setters.GetisOrd_SetLocality locality g =
  ({| g_data := g_data g; g_locality := DenseCopyOf locality;
      g_mean := g_mean g; g_s := g_s g |}, Ok tt).
Proof.
  intros (Hdims & _ & _) Hloc. unfold Setters.GetisOrd_SetLocality, Vector_Len.
  run_method.
  rewrite Hloc, (proj2 (mismatch_false _ _) eq_refl). run_method.
  now rewrite Dense_Copy_same_dims by congruence.
Qed.

(** With one parameter nil, [Reset] is the setter of the other field. *)
Lemma NilReset_Moran_Reset_data (data : list F) (m : Moran F) :
  NilReset.Moran_Reset (Some data) None m = Setters.Moran_SetData data m.
Proof. reflexivity. Qed.

Lemma NilReset_Moran_Reset_locality (locality : Matrix F) (m : Moran F) :
  NilReset.Moran_Reset None (Some locality) m
  = Setters.Moran_SetLocality locality m.
Proof. reflexivity. Qed.

Lemma NilReset_GetisOrd_Reset_data (data : list F) (g : GetisOrd F) :
  NilReset.GetisOrd_Reset (Some data) None g = Setters.GetisOrd_SetData data g.
Proof. reflexivity. Qed.

Lemma NilReset_GetisOrd_Reset_locality (locality : Matrix F) (g : GetisOrd F) :
  NilReset.GetisOrd_Reset None (Some locality) g
  = Setters.GetisOrd_SetLocality locality g.
Proof. reflexivity. Qed.

End Mutators.

(** ** Rejected calls leave the engine as it was *)
Section Rejection.
Context {F : Type} `{Arith F}.

Lemma Reset_pair_rejected (data : list F) (locality : Matrix F)
    (g : GetisOrd F) (m : Moran F) :
  disagree (Dims locality) (length data) ->
  Setters.Moran_Reset data locality m = (m, Panic DimensionMismatch)
  /\ Setters.GetisOrd_Reset data locality g = (g, Panic DimensionMismatch)
  /\ NilReset.Moran_Reset (Some data) (Some locality) m
     = (m, Panic DimensionMismatch)
  /\ NilReset.GetisOrd_Reset (Some data) (Some locality) g
     = (g, Panic DimensionMismatch).
Proof.
  intros Hdis. apply mismatch_true in Hdis.
  unfold Setters.Moran_Reset, Setters.GetisOrd_Reset,
    NilReset.Moran_Reset, NilReset.GetisOrd_Reset.
  destruct (Dims locality) as [r c]. rewrite Hdis. now repeat split.
Qed.

Lemma SetData_rejected (data : list F) (g : GetisOrd F) (m : Moran F) :
  (disagree (Dense_Dims (m_locality m)) (length data) ->
   Setters.Moran_SetData data m = (m, Panic DimensionMismatch))
  /\ (disagree (Dense_Dims (g_locality g)) (length data) ->
      Setters.GetisOrd_SetData data g = (g, Panic DimensionMismatch)).
Proof.
  split; intros Hdis; apply mismatch_true in Hdis;
    unfold Setters.Moran_SetData, Setters.GetisOrd_SetData; run_method;
    now rewrite Hdis.
Qed.

Lemma SetLocality_rejected (locality : Matrix F) (g : GetisOrd F) (m : Moran F) :
  (disagree (Dims locality) (length (m_data m)) ->
   Setters.Moran_SetLocality locality m = (m, Panic DimensionMismatch))
  /\ (disagree (Dims locality) (length (g_data g)) ->
      Setters.GetisOrd_SetLocality locality g = (g, Panic DimensionMismatch)).
Proof.
  split; intros Hdis; apply mismatch_true in Hdis;
    unfold Setters.Moran_SetLocality, Setters.GetisOrd_SetLocality, Vector_Len;
    run_method; now rewrite Hdis.
Qed.

Lemma New_rejected (data : list F) (locality : Matrix F) :
  disagree (Dims locality) (length data) ->
  NewMoran data locality = Panic DimensionMismatch
  /\ NewGetisOrd data locality = Panic DimensionMismatch.
Proof.
  intros Hdis. apply mismatch_true in Hdis.
  unfold NewMoran, NewGetisOrd. now rewrite Hdis.
Qed.

End Rejection.

Lemma GlobalMoransI_nil_weights {F : Type} `{Arith F} {L : Library F}
    (data : list F) (locality : Matrix F) :
  Weighted.GlobalMoransI data None locality <> Panic NotImplemented.
Proof.
  destruct (mismatch (Dims locality) (length data)) eqn:Hmis.
  - unfold Weighted.GlobalMoransI. rewrite Hmis. discriminate.
  - apply mismatch_false in Hmis. rewrite (GlobalMoransI_loop data locality Hmis).
    discriminate.
Qed.

Lemma NewGetisOrd_nil_weights {F : Type} `{Arith F}
    (data : list F) (locality : Matrix F) :
  Weighted.NewGetisOrd data None locality <> Panic NotImplemented.
Proof.
  destruct (mismatch (Dims locality) (length data)) eqn:Hmis.
  - unfold Weighted.NewGetisOrd. rewrite Hmis. discriminate.
  - apply mismatch_false in Hmis. rewrite Weighted_NewGetisOrd_nil.
    rewrite (NewGetisOrd_ok data locality Hmis). discriminate.
Qed.

(** ** [Reset] with the held values *)
Section ResetHeld.
Context {F : Type} `{Arith F}.

Lemma Moran_Reset_held (m : Moran F) :
  Moran_inv m ->
  NilReset.Moran_Reset (Some (m_data m)) (Some (Dense_Matrix (m_locality m))) m
  = (m, Ok tt)
  /\ Setters.Moran_Reset (m_data m) (Dense_Matrix (m_locality m)) m = (m, Ok tt).
Proof.
  intros (Hdims & Hwf & Hmean).
  rewrite NilReset_Moran_Reset_ok, Setters_Moran_Reset_ok by exact Hdims.
  rewrite (DenseCopyOf_Dense_Matrix _ Hwf), <- Hmean.
  now destruct m.
Qed.

Lemma GetisOrd_Reset_held (g : GetisOrd F) :
  GetisOrd_inv g ->
  NilReset.GetisOrd_Reset (Some (g_data g)) (Some (Dense_Matrix (g_locality g))) g
  = (g, Ok tt)
  /\ Setters.GetisOrd_Reset (g_data g) (Dense_Matrix (g_locality g)) g
     = (g, Ok tt).
Proof.
  intros (Hdims & Hwf & Hmean & Hs).
  rewrite NilReset_GetisOrd_Reset_ok, Setters_GetisOrd_Reset_ok by exact Hdims.
  rewrite (DenseCopyOf_Dense_Matrix _ Hwf), <- Hmean, <- Hs.
  now destruct g.
Qed.

End ResetHeld.

(** ** The invariants are kept

    Every mutator, whether it returns or panics, leaves an engine that
    satisfies the invariant. *)
Section MutatorsKeepInvariant.
Context {F : Type} `{Arith F}.

Lemma Moran_inv_fresh (data : list F) (locality : Matrix F) :
  Dims locality = (length data, length data) ->
  Moran_inv {| m_data := data; m_mean := Mean data;
               m_locality := DenseCopyOf locality |}.
Proof.
  intros Hdims. repeat split; cbn.
  - now rewrite Dims_DenseCopyOf.
  - apply Dense_wf_DenseCopyOf.
Qed.

Lemma GetisOrd_inv_fresh (data : list F) (locality : Matrix F) :
  Dims locality = (length data, length data) ->
  GetisOrd_inv
    {| g_data := data;
       g_locality := DenseCopyOf locality;
       g_mean := Mean data;
       g_s := (sum_squares data / of_int (Z.of_nat (length data))
               - Mean data * Mean data)%f64 |}.
Proof.
  intros Hdims. repeat split; cbn.
  - now rewrite Dims_DenseCopyOf.
  - apply Dense_wf_DenseCopyOf.
Qed.

Lemma Setters_Moran_Reset_inv (data : list F) (locality : Matrix F) (m : Moran F) :
  Moran_inv m -> Moran_inv (fst (Setters.Moran_Reset data locality m)).
Proof.
  intros Hinv. destruct (mismatch (Dims locality) (length data)) eqn:Hmis.
  - unfold Setters.Moran_Reset. destruct (Dims locality). now rewrite Hmis.
  - apply mismatch_false in Hmis.
    rewrite Setters_Moran_Reset_ok by assumption. now apply Moran_inv_fresh.
Qed.

Lemma Setters_Moran_SetData_inv (data : list F) (m : Moran F) :
  Moran_inv m -> Moran_inv (fst (Setters.Moran_SetData data m)).
Proof.
  intros Hinv.
  destruct (mismatch (Dense_Dims (m_locality m)) (length data)) eqn:Hmis.
  - unfold Setters.Moran_SetData. run_method. now rewrite Hmis.
  - apply mismatch_false in Hmis. destruct Hinv as (Hdims & Hwf & Hmean).
    assert (Hlen : length data = length (m_data m)) by congruence.
    rewrite Setters_Moran_SetData_ok by (repeat split; assumption).
    repeat split; cbn; congruence.
Qed.

Lemma Setters_Moran_SetLocality_inv (locality : Matrix F) (m : Moran F) :
  Moran_inv m -> Moran_inv (fst (Setters.Moran_SetLocality locality m)).
Proof.
  intros Hinv.
  destruct (mismatch (Dims locality) (length (m_data m))) eqn:Hmis.
  - unfold Setters.Moran_SetLocality. run_method. now rewrite Hmis.
  - apply mismatch_false in Hmis.
    rewrite Setters_Moran_SetLocality_ok by assumption.
    destruct Hinv as (Hdims & Hwf & Hmean). repeat split; cbn.
    + now rewrite Dims_DenseCopyOf.
    + apply Dense_wf_DenseCopyOf.
    + assumption.
Qed.

Lemma NilReset_Moran_Reset_inv (data : option (list F))
    (locality : option (Matrix F)) (m : Moran F) :
  Moran_inv m -> Moran_inv (fst (NilReset.Moran_Reset data locality m)).
Proof.
  intros Hinv. destruct data as [data|], locality as [locality|].
  - destruct (mismatch (Dims locality) (length data)) eqn:Hmis.
    + unfold NilReset.Moran_Reset. destruct (Dims locality).
      now rewrite Hmis.
    + apply mismatch_false in Hmis.
      rewrite NilReset_Moran_Reset_ok by assumption. now apply Moran_inv_fresh.
  - rewrite NilReset_Moran_Reset_data. now apply Setters_Moran_SetData_inv.
  - rewrite NilReset_Moran_Reset_locality.
    now apply Setters_Moran_SetLocality_inv.
  - assumption.
Qed.

Lemma Setters_GetisOrd_Reset_inv (data : list F) (locality : Matrix F)
    (g : GetisOrd F) :
  GetisOrd_inv g -> GetisOrd_inv (fst (Setters.GetisOrd_Reset data locality g)).
Proof.
  intros Hinv. destruct (mismatch (Dims locality) (length data)) eqn:Hmis.
  - unfold Setters.GetisOrd_Reset. destruct (Dims locality). now rewrite Hmis.
  - apply mismatch_false in Hmis.
    rewrite Setters_GetisOrd_Reset_ok by assumption.
    now apply GetisOrd_inv_fresh.
Qed.

Lemma Setters_GetisOrd_SetData_inv (data : list F) (g : GetisOrd F) :
  GetisOrd_inv g -> GetisOrd_inv (fst (Setters.GetisOrd_SetData data g)).
Proof.
  intros Hinv.
  destruct (mismatch (Dense_Dims (g_locality g)) (length data)) eqn:Hmis.
  - unfold Setters.GetisOrd_SetData. run_method. now rewrite Hmis.
  - apply mismatch_false in Hmis.
    pose proof Hinv as (Hdims & Hwf & Hmean & Hs).
    assert (Hlen : length data = length (g_data g)) by congruence.
    rewrite Setters_GetisOrd_SetData_ok by assumption.
    repeat split; cbn; congruence.
Qed.

Lemma Setters_GetisOrd_SetLocality_inv (locality : Matrix F) (g : GetisOrd F) :
  GetisOrd_inv g -> GetisOrd_inv (fst (Setters.GetisOrd_SetLocality locality g)).
Proof.
  intros Hinv.
  destruct (mismatch (Dims locality) (length (g_data g))) eqn:Hmis.
  - unfold Setters.GetisOrd_SetLocality, Vector_Len. run_method.
    now rewrite Hmis.
  - apply mismatch_false in Hmis.
    rewrite Setters_GetisOrd_SetLocality_ok by assumption.
    destruct Hinv as (Hdims & Hwf & Hmean & Hs). repeat split; cbn.
    + now rewrite Dims_DenseCopyOf.
    + apply Dense_wf_DenseCopyOf.
    + assumption.
    + assumption.
Qed.

Lemma NilReset_GetisOrd_Reset_inv (data : option (list F))
    (locality : option (Matrix F)) (g : GetisOrd F) :
  GetisOrd_inv g -> GetisOrd_inv (fst (NilReset.GetisOrd_Reset data locality g)).
Proof.
  intros Hinv. destruct data as [data|], locality as [locality|].
  - destruct (mismatch (Dims locality) (length data)) eqn:Hmis.
    + unfold NilReset.GetisOrd_Reset. destruct (Dims locality).
      now rewrite Hmis.
    + apply mismatch_false in Hmis.
      rewrite NilReset_GetisOrd_Reset_ok by assumption.
      now apply GetisOrd_inv_fresh.
  - rewrite NilReset_GetisOrd_Reset_data. now apply Setters_GetisOrd_SetData_inv.
  - rewrite NilReset_GetisOrd_Reset_locality.
    now apply Setters_GetisOrd_SetLocality_inv.
  - assumption.
Qed.

End MutatorsKeepInvariant.

(** ** Loops by index *)

Lemma iter_index_ext {St : Type} (n : nat) (g g' : nat -> St -> St) (s : St) :
  (forall k s', k < n -> g k s' = g' k s') ->
  iter_index n g s = iter_index n g' s.
Proof.
  induction n as [|n IH]; intros Hg; [reflexivity|].
  cbn [iter_index]. rewrite IH by (intros; apply Hg; lia).
  apply Hg. lia.
Qed.

Lemma range_fold_from_snoc {A St : Type} (l : list A) (a : A)
    (f : nat -> A -> St -> St) :
  forall (i : nat) (s : St),
    range_fold_from i (l ++ [a]) f s
    = f (i + length l) a (range_fold_from i l f s).
Proof.
  induction l as [|x l IH]; intros i s.
  - cbn. now rewrite Nat.add_0_r.
  - cbn [app]. rewrite !range_fold_from_cons, IH. cbn [length].
    now rewrite Nat.add_succ_r.
Qed.

Lemma range_fold_index {A St : Type} (d : A) (l : list A)
    (f : nat -> A -> St -> St) (s : St) :
  range_fold l f s = iter_index (length l) (fun k => f k (nth k l d)) s.
Proof.
  induction l as [|a l IH] using rev_ind; [reflexivity|].
  unfold range_fold in *. rewrite range_fold_from_snoc, IH, length_app.
  cbn [length Nat.add]. rewrite Nat.add_1_r. cbn [iter_index].
  rewrite app_nth2, Nat.sub_diag by lia. cbn [nth]. f_equal.
  apply iter_index_ext. intros k s' Hk. now rewrite app_nth1.
Qed.

Lemma fold_left_range_fold {A St : Type} (l : list A) (f : St -> A -> St) (s : St) :
  fold_left f l s = range_fold l (fun _ x s => f s x) s.
Proof.
  unfold range_fold. generalize 0. revert s.
  induction l as [|x l IH]; intros s i; [reflexivity|].
  rewrite range_fold_from_cons. cbn [fold_left]. apply IH.
Qed.

Lemma fold_left_index {A St : Type} (d : A) (l : list A) (f : St -> A -> St) (s : St) :
  fold_left f l s = iter_index (length l) (fun k s => f s (nth k l d)) s.
Proof.
  rewrite fold_left_range_fold.
  exact (range_fold_index d l (fun _ x s => f s x) s).
Qed.

Lemma fold_left_seq_index {St : Type} (n : nat) (f : St -> nat -> St) (s : St) :
  fold_left f (seq 0 n) s = iter_index n (fun k s => f s k) s.
Proof.
  rewrite (fold_left_index 0), length_seq.
  apply iter_index_ext. intros k s' Hk. now rewrite seq_nth.
Qed.

(** ** Any arithmetic: the loops are running sums in index order *)
Section RunningSums.
Context {F : Type} `{Arith F}.
Local Open Scope f64_scope.

Lemma iter_index_pair {A B : Type} (n : nat) (g1 : nat -> A -> A)
    (g2 : nat -> B -> B) (a : A) (b : B) :
  iter_index n (fun i s => (g1 i (fst s), g2 i (snd s))) (a, b)
  = (iter_index n g1 a, iter_index n g2 b).
Proof.
  induction n as [|n IH]; [reflexivity|].
  cbn [iter_index]. now rewrite IH.
Qed.

Lemma iter_index_add_map (n : nat) (t : nat -> F) (a : F) :
  iter_index n (fun i s => s + t i) a = fold_left add (map t (seq 0 n)) a.
Proof.
  rewrite <- (fold_left_seq_index n (fun s i => s + t i) a).
  generalize (seq 0 n) as l. intros l. revert a.
  induction l as [|i l IH]; intros a; [reflexivity|].
  cbn [map fold_left]. apply IH.
Qed.

Lemma tabulate_succ (r c : nat) (t : nat -> nat -> F) :
  tabulate (S r) c t = tabulate r c t ++ map (t r) (seq 0 c).
Proof.
  unfold tabulate. rewrite seq_S, flat_map_app. cbn [flat_map Nat.add].
  now rewrite app_nil_r.
Qed.

Lemma iter_index_add_tabulate (r c : nat) (t : nat -> nat -> F) (a : F) :
  iter_index r (fun i s => iter_index c (fun j s => s + t i j) s) a
  = fold_left add (tabulate r c t) a.
Proof.
  induction r as [|r IH]; [reflexivity|].
  cbn [iter_index]. rewrite IH, tabulate_succ, fold_left_app.
  apply iter_index_add_map.
Qed.

Lemma Sum_running (a : Matrix F) :
  Sum a = running_sum (tabulate (fst (Dims a)) (snd (Dims a)) (entry a)).
Proof.
  unfold Sum, running_sum. destruct (Dims a) as [r c]. cbn [fst snd].
  rewrite fold_left_seq_index, <- iter_index_add_tabulate.
  apply iter_index_ext. intros i s Hi. apply fold_left_seq_index.
Qed.

Lemma Sum_Vector_running (v : Vector F) :
  Sum (Vector_Matrix v)
  = running_sum (map (fun j => nth j v zero) (seq 0 (length v))).
Proof.
  unfold Sum, running_sum. cbn [Vector_Matrix Dims entry].
  rewrite fold_left_seq_index. apply iter_index_add_map.
Qed.

Lemma sum_squares_running (x : list F) :
  sum_squares x
  = running_sum (map (fun j => nth j x zero * nth j x zero) (seq 0 (length x))).
Proof.
  unfold sum_squares, running_sum. rewrite (fold_left_index zero).
  apply iter_index_add_map.
Qed.

Lemma I_loop_running (w : nat -> nat -> F) (x : list F) (mean : F) :
  let n := length x in
  let xi := fun i => nth i x zero in
  I_loop w x mean
  = (running_sum (tabulate n n (fun i j => w i j * (xi i - mean) * (xi j - mean))),
     running_sum (map (fun i => (xi i - mean) * (xi i - mean)) (seq 0 n))).
Proof.
  intros n xi. unfold I_loop, running_sum. rewrite (range_fold_index zero).
  rewrite (iter_index_ext (length x) _
    (fun i s =>
       (iter_index n (fun j num => num + w i j * (xi i - mean) * (xi j - mean))
          (fst s),
        snd s + (xi i - mean) * (xi i - mean)))).
  - rewrite (iter_index_pair (length x)
               (fun i num =>
                  iter_index n
                    (fun j num => num + w i j * (xi i - mean) * (xi j - mean)) num)
               (fun i den => den + (xi i - mean) * (xi i - mean))).
    rewrite iter_index_add_map. f_equal.
    apply iter_index_add_tabulate.
  - intros i [num den] Hi. unfold I_body, I_inner.
    now rewrite (range_fold_index zero).
Qed.

Lemma iter_index_triple {A B C : Type} (n : nat) (g1 : nat -> A -> A)
    (g2 : nat -> B -> B) (g3 : nat -> C -> C) (a : A) (b : B) (c : C) :
  iter_index n (fun j '(a, b, c) => (g1 j a, g2 j b, g3 j c)) (a, b, c)
  = (iter_index n g1 a, iter_index n g2 b, iter_index n g3 c).
Proof.
  induction n as [|n IH]; [reflexivity|].
  cbn [iter_index]. now rewrite IH.
Qed.

Lemma iter_index_tuple5 {A1 A2 A3 A4 A5 : Type} (n : nat)
    (g1 : nat -> A1 -> A1) (g2 : nat -> A2 -> A2) (g3 : nat -> A3 -> A3)
    (g4 : nat -> A4 -> A4) (g5 : nat -> A5 -> A5)
    (a1 : A1) (a2 : A2) (a3 : A3) (a4 : A4) (a5 : A5) :
  iter_index n
    (fun i '(a1, a2, a3, a4, a5) => (g1 i a1, g2 i a2, g3 i a3, g4 i a4, g5 i a5))
    (a1, a2, a3, a4, a5)
  = (iter_index n g1 a1, iter_index n g2 a2, iter_index n g3 a3,
     iter_index n g4 a4, iter_index n g5 a5).
Proof.
  induction n as [|n IH]; [reflexivity|].
  cbn [iter_index]. now rewrite IH.
Qed.

Lemma Var_inner_running (w : nat -> nat -> F) (x : list F) (i : nat)
    (s0 s1 p2 : F) :
  let n := length x in
  Var_inner w x i (s0, s1, p2)
  = (iter_index n (fun j s => s + w i j) s0,
     iter_index n (fun j s => s + (w i j + w j i) * (w i j + w j i)) s1,
     iter_index n (fun j s => s + (w i j + w j i)) p2).
Proof.
  intros n. unfold Var_inner. rewrite (range_fold_index zero).
  rewrite <- (iter_index_triple n (fun j s => s + w i j)
                (fun j s => s + (w i j + w j i) * (w i j + w j i))
                (fun j s => s + (w i j + w j i))).
  apply iter_index_ext. intros j [[t0 t1] q2] Hj. reflexivity.
Qed.

Lemma Var_loop_running (w : nat -> nat -> F) (x : list F) (mean : F) :
  let n := length x in
  let xi := fun i => nth i x zero in
  let v := fun i => (xi i - mean) * (xi i - mean) in
  let p := fun i => running_sum (map (fun j => w i j + w j i) (seq 0 n)) in
  Var_loop w x mean
  = (running_sum (tabulate n n w),
     running_sum (tabulate n n (fun i j => (w i j + w j i) * (w i j + w j i))),
     running_sum (map (fun i => p i * p i) (seq 0 n)),
     running_sum (map v (seq 0 n)),
     running_sum (map (fun i => v i * v i) (seq 0 n))).
Proof.
  intros n xi v p. unfold Var_loop, running_sum.
  rewrite (range_fold_index zero).
  rewrite (iter_index_ext (length x) _
    (fun i '(s0, s1, s2, var2, var4) =>
       (iter_index n (fun j s => s + w i j) s0,
        iter_index n (fun j s => s + (w i j + w j i) * (w i j + w j i)) s1,
        s2 + p i * p i,
        var2 + v i,
        var4 + v i * v i))).
  - rewrite (iter_index_tuple5 (length x)
               (fun i s0 => iter_index n (fun j s => s + w i j) s0)
               (fun i s1 =>
                  iter_index n
                    (fun j s => s + (w i j + w j i) * (w i j + w j i)) s1)
               (fun i s2 => s2 + p i * p i)
               (fun i var2 => var2 + v i)
               (fun i var4 => var4 + v i * v i)).
    rewrite !iter_index_add_map.
    rewrite (iter_index_add_tabulate (length x) n w).
    rewrite (iter_index_add_tabulate (length x) n
               (fun i j => (w i j + w j i) * (w i j + w j i))).
    reflexivity.
  - intros i [[[[s0 s1] s2] var2] var4] Hi. unfold Var_body.
    rewrite Var_inner_running. fold n.
    rewrite (iter_index_add_map n (fun j => w i j + w j i) zero).
    reflexivity.
Qed.

End RunningSums.

(** ** Row views and dot products *)
Section RowViews.
Context {F : Type} `{Arith F}.

Lemma Dense_RowView_ok (d : Dense F) (i : Z) :
  Dense_wf d -> (0 <= i < Z.of_nat (rows d))%Z ->
  exists wi : Vector F,
    Dense_RowView d i = Ok wi
    /\ length wi = cols d
    /\ forall j, j < cols d ->
         nth j wi zero = entry (Dense_Matrix d) (Z.to_nat i) j.
Proof.
  intros Hwf Hi. unfold Dense_RowView.
  replace ((i <? 0)%Z || (Z.of_nat (rows d) <=? i)%Z) with false
    by (symmetry; apply orb_false_iff; split; [apply Z.ltb_ge|apply Z.leb_gt]; lia).
  eexists. split; [reflexivity|].
  assert (Hrow : Z.to_nat i < rows d) by lia.
  assert (Hbound : Z.to_nat i * cols d + cols d <= length (elems d))
    by (rewrite Hwf; nia).
  split.
  - rewrite length_firstn, length_skipn. lia.
  - intros j Hj. cbn [Dense_Matrix entry].
    rewrite nth_firstn. apply Nat.ltb_lt in Hj. rewrite Hj.
    rewrite nth_skipn. reflexivity.
Qed.

End RowViews.

(** ** The sums of the library *)
Section LibrarySums.
Context {F : Type} `{Arith F}.
Local Open Scope f64_scope.

Lemma summed_running (l : list F) : summed l (running_sum l).
Proof.
  unfold running_sum. induction l as [|t l IH] using rev_ind.
  - apply summed_nil.
  - rewrite fold_left_app. cbn [fold_left].
    apply summed_add; [exact IH | apply summed_one].
Qed.

Lemma summed_closed (P : F -> Prop) (l : list F) (v : F) :
  P zero -> (forall a b, P a -> P b -> P (a + b)) ->
  (forall t, In t l -> P t) -> summed l v -> P v.
Proof.
  intros Hzero Hadd Hl Hs. induction Hs as [|t|l1 l2 a b _ IH1 _ IH2|l l' a Hp _ IH].
  - exact Hzero.
  - apply Hl. now left.
  - apply Hadd; [apply IH1 | apply IH2]; intros t Ht; apply Hl, in_or_app; auto.
  - apply IH. intros t Ht. apply Hl. now apply (Permutation_in t Hp).
Qed.

Lemma Sum_summed (a : Matrix F) :
  summed (tabulate (fst (Dims a)) (snd (Dims a)) (entry a)) (Sum a).
Proof. rewrite Sum_running. apply summed_running. Qed.

Lemma flat_map_app_perm {A B : Type} (f g : A -> list B) (l : list A) :
  Permutation (flat_map (fun a => f a ++ g a) l) (flat_map f l ++ flat_map g l).
Proof.
  induction l as [|a l IH]; cbn [flat_map app]; [constructor|].
  rewrite IH, <- !app_assoc. apply Permutation_app_head.
  rewrite !app_assoc. apply Permutation_app_tail, Permutation_app_comm.
Qed.

Lemma flat_map_singleton {A B : Type} (f : A -> B) (l : list A) :
  flat_map (fun a => [f a]) l = map f l.
Proof. induction l as [|a l IH]; cbn; [reflexivity | now rewrite IH]. Qed.

Lemma tabulate_no_columns (r : nat) (f : nat -> nat -> F) : tabulate r 0 f = [].
Proof.
  unfold tabulate. cbn [seq map].
  induction (seq 0 r) as [|i l IH]; cbn; [reflexivity | exact IH].
Qed.

Lemma tabulate_transpose (r c : nat) (f : nat -> nat -> F) :
  Permutation (tabulate c r (fun j i => f i j)) (tabulate r c f).
Proof.
  induction r as [|r IH].
  - rewrite tabulate_no_columns. constructor.
  - rewrite tabulate_succ.
    transitivity (flat_map (fun j => map (fun i => f i j) (seq 0 r) ++ [f r j])
                    (seq 0 c)).
    + unfold tabulate. apply Permutation_refl'. apply flat_map_ext. intros j.
      rewrite seq_S, map_app. reflexivity.
    + rewrite flat_map_app_perm, flat_map_singleton.
      apply Permutation_app_tail. exact IH.
Qed.

Lemma Sum_by_columns_summed (a : Matrix F) :
  summed (tabulate (fst (Dims a)) (snd (Dims a)) (entry a)) (Sum_by_columns a).
Proof.
  destruct a as [[r c] e]. cbn [Dims entry fst snd].
  apply (summed_perm (tabulate c r (fun j i => e i j)));
    [apply tabulate_transpose|].
  change (Sum_by_columns {| Dims := (r, c); entry := e |})
    with (Sum {| Dims := (c, r); entry := fun j i => e i j |}).
  rewrite Sum_running. apply summed_running.
Qed.

Lemma Dot_in_order_shape (a b : Vector F) :
  length a <> length b -> Dot_in_order a b = Panic ErrShape.
Proof.
  intros Hlen. unfold Dot_in_order.
  now rewrite (proj2 (Nat.eqb_neq _ _) Hlen).
Qed.

Lemma Dot_in_order_summed (a b : Vector F) :
  length a = length b ->
  exists v : F, Dot_in_order a b = Ok v /\ summed (products a b) v.
Proof.
  intros Hlen. unfold Dot_in_order. rewrite Hlen, Nat.eqb_refl.
  eexists. split; [reflexivity|].
  replace (fold_left (fun sum ab => sum + fst ab * snd ab) (combine a b) zero)
    with (running_sum (products a b)); [apply summed_running|].
  unfold running_sum, products. generalize (combine a b), zero.
  intros l. induction l as [|ab l IH]; intros s; [reflexivity|].
  cbn [map fold_left]. apply IH.
Qed.

(** The library that adds in the order of the indices, row by row. *)
Definition library_in_order : Library F := {|
  mat_Sum := Sum;
  Dot := Dot_in_order;
  mat_Sum_summed := Sum_summed;
  Dot_shape := Dot_in_order_shape;
  Dot_summed := Dot_in_order_summed
|}.

(** The library that adds a matrix of the caller column by column. *)
Definition library_by_columns : Library F := {|
  mat_Sum := Sum_by_columns;
  Dot := Dot_in_order;
  mat_Sum_summed := Sum_by_columns_summed;
  Dot_shape := Dot_in_order_shape;
  Dot_summed := Dot_in_order_summed
|}.

Lemma Dot_returns {L : Library F} (a b : Vector F) :
  length a = length b -> exists v : F, Dot a b = Ok v.
Proof.
  intros Hlen. destruct (Dot_summed a b Hlen) as (v & Hv & _). now exists v.
Qed.

End LibrarySums.

(** The worked cases run on the library that adds in index order. *)
#[global] Instance Library_float : Library float := library_in_order.

(** ** Binary64 arithmetic: one observation *)

Lemma shr_fexp_canonical (m : positive) (e : Z) :
  SpecFloat.canonical_mantissa FloatOps.prec FloatOps.emax m e = true ->
  shr_fexp FloatOps.prec FloatOps.emax (Zpos m) e loc_Exact
  = ({| shr_m := Zpos m; shr_r := false; shr_s := false |}, e).
Proof.
  unfold SpecFloat.canonical_mantissa, shr_fexp. intros Hc. apply Z.eqb_eq in Hc.
  cbn [Zdigits2 shr_record_of_loc]. rewrite Hc, Z.sub_diag. reflexivity.
Qed.

Lemma binary_round_aux_canonical (s : bool) (m : positive) (e : Z) :
  SpecFloat.bounded FloatOps.prec FloatOps.emax m e = true ->
  binary_round_aux FloatOps.prec FloatOps.emax s (Zpos m) e loc_Exact = S754_finite s m e.
Proof.
  unfold SpecFloat.bounded. intros Hb. apply andb_true_iff in Hb. destruct Hb as [Hc He].
  unfold binary_round_aux. rewrite (shr_fexp_canonical m e Hc).
  cbn [shr_m loc_of_shr_record round_nearest_even].
  rewrite (shr_fexp_canonical m e Hc). cbn [shr_m]. now rewrite He.
Qed.

Lemma binary_round_aux_double (s : bool) (m : positive) (e : Z) :
  SpecFloat.bounded FloatOps.prec FloatOps.emax m e = true ->
  digits2_pos m = 53%positive ->
  (-1074 < e)%Z ->
  binary_round_aux FloatOps.prec FloatOps.emax s (Zpos m~0) (e - 1) loc_Exact = S754_finite s m e.
Proof.
  intros Hb Hd He. unfold binary_round_aux.
  assert (Hshr : shr_fexp FloatOps.prec FloatOps.emax (Zpos m~0) (e - 1) loc_Exact
                 = ({| shr_m := Zpos m; shr_r := false; shr_s := false |}, e)).
  { unfold shr_fexp. cbn [Zdigits2 digits2_pos]. rewrite Hd.
    replace (fexp FloatOps.prec FloatOps.emax (Zpos (Pos.succ 53) + (e - 1)) - (e - 1))%Z with 1%Z.
    - cbn [shr_record_of_loc shr iter_pos shr_1 orb]. f_equal. lia.
    - unfold fexp, SpecFloat.emin, FloatOps.prec, FloatOps.emax. lia. }
  rewrite Hshr. cbn [shr_m loc_of_shr_record round_nearest_even].
  unfold SpecFloat.bounded in Hb. apply andb_true_iff in Hb. destruct Hb as [Hc Hle].
  rewrite (shr_fexp_canonical m e Hc). cbn [shr_m]. now rewrite Hle.
Qed.

Lemma div_eucl_mul (q b : Z) : (0 < b)%Z -> Z.div_eucl (q * b) b = (q, 0%Z).
Proof.
  intros Hb.
  assert (Hqr : Z.div_eucl (q * b) b = ((q * b / b)%Z, (q * b mod b)%Z))
    by (unfold Z.div, Z.modulo; now destruct (Z.div_eucl (q * b) b)).
  rewrite Hqr, Z.div_mul, Z.mod_mul by lia. reflexivity.
Qed.

Lemma SFdiv_core_one (m : positive) (e : Z) :
  SpecFloat.bounded FloatOps.prec FloatOps.emax m e = true ->
  SFdiv_core_binary FloatOps.prec FloatOps.emax (Zpos m) e (Zpos one_mantissa) (-52)
  = if (digits2_pos m =? 53)%positive && (-1074 <? e)%Z
    then (Zpos m~0, (e - 1)%Z, loc_Exact)
    else (Zpos m, e, loc_Exact).
Proof.
  unfold SpecFloat.bounded, SpecFloat.canonical_mantissa. intros Hb.
  apply andb_true_iff in Hb. destruct Hb as [Hc Hle].
  apply Z.eqb_eq in Hc. unfold fexp, SpecFloat.emin, FloatOps.prec, FloatOps.emax in Hc.
  unfold SFdiv_core_binary. cbn [Zdigits2].
  change (Zpos (digits2_pos one_mantissa)) with 53%Z.
  unfold fexp, SpecFloat.emin, FloatOps.prec, FloatOps.emax.
  destruct ((digits2_pos m =? 53)%positive && (-1074 <? e)%Z) eqn:Hcase.
  - apply andb_true_iff in Hcase. destruct Hcase as [Hd He].
    apply Pos.eqb_eq in Hd. apply Z.ltb_lt in He. rewrite Hd in *.
    replace (Z.min (Z.max (53 + e - (53 + -52) - 53) (3 - 1024 - 53)) (e - -52))%Z
      with (e - 1)%Z by lia.
    replace (e - -52 - (e - 1))%Z with 53%Z by lia.
    rewrite Z.shiftl_mul_pow2 by lia.
    replace (Zpos m * 2 ^ 53)%Z with (Zpos m~0 * Zpos one_mantissa)%Z
      by (rewrite (Pos2Z.inj_xO m); unfold one_mantissa; lia).
    rewrite div_eucl_mul by reflexivity. reflexivity.
  - assert (He' : (Z.min (Z.max (Zpos (digits2_pos m) + e - (53 + -52) - 53)
                             (3 - 1024 - 53)) (e - -52))%Z = e).
    { apply andb_false_iff in Hcase. destruct Hcase as [Hd|He].
      - apply Pos.eqb_neq in Hd.
        assert (Zpos (digits2_pos m) <> 53%Z) by congruence. lia.
      - apply Z.ltb_ge in He. lia. }
    rewrite He'.
    replace (e - -52 - e)%Z with 52%Z by lia.
    rewrite Z.shiftl_mul_pow2 by lia.
    change (2 ^ 52)%Z with (Zpos one_mantissa).
    rewrite div_eucl_mul by reflexivity. reflexivity.
Qed.

Lemma SFdiv_one (s : bool) (m : positive) (e : Z) :
  SpecFloat.bounded FloatOps.prec FloatOps.emax m e = true ->
  SF64div (S754_finite s m e) (S754_finite false one_mantissa (-52))
  = S754_finite s m e.
Proof.
  intros Hb. unfold SF64div, SFdiv. rewrite (SFdiv_core_one m e Hb).
  rewrite xorb_false_r.
  destruct ((digits2_pos m =? 53)%positive && (-1074 <? e)%Z) eqn:Hcase.
  - apply andb_true_iff in Hcase. destruct Hcase as [Hd He].
    apply Pos.eqb_eq in Hd. apply Z.ltb_lt in He.
    now apply binary_round_aux_double.
  - now apply binary_round_aux_canonical.
Qed.

Lemma div_one (x : float) : (x / 1)%float = x.
Proof.
  apply Prim2SF_inj. rewrite div_spec.
  change (Prim2SF 1) with (S754_finite false one_mantissa (-52)).
  pose proof (Prim2SF_valid x) as Hv.
  destruct (Prim2SF x) as [s | s | | s m e]; try reflexivity.
  - cbn. now rewrite xorb_false_r.
  - cbn. now rewrite xorb_false_r.
  - now apply SFdiv_one.
Qed.

Lemma Prim2SF_nan (f : float) : Prim2SF f = S754_nan -> f = nan.
Proof. intros Hf. rewrite <- (SF2Prim_Prim2SF f), Hf. reflexivity. Qed.

Lemma add_zero_l_spec (x : float) :
  Prim2SF (0 + x)%float =
  match Prim2SF x with
  | S754_zero _ => S754_zero false
  | sx => sx
  end.
Proof.
  rewrite add_spec. change (Prim2SF 0) with (S754_zero false).
  now destruct (Prim2SF x) as [[|] | [|] | | s m e].
Qed.

Lemma mul_add_zero_l (x : float) : ((0 + x) * (0 + x))%float = (x * x)%float.
Proof.
  apply Prim2SF_inj. rewrite !mul_spec, add_zero_l_spec.
  now destruct (Prim2SF x) as [[|] | [|] | | s m e].
Qed.

Lemma SFsub_diag (s : bool) (m : positive) (e : Z) :
  SF64sub (S754_finite s m e) (S754_finite s m e) = S754_zero false.
Proof. unfold SF64sub, SFsub. now rewrite Z.sub_diag. Qed.

Lemma sub_add_zero_l_self (p : float) : zero_or_nan ((0 + p) - p)%float.
Proof.
  unfold zero_or_nan. rewrite sub_spec, add_zero_l_spec.
  destruct (Prim2SF p) as [[|] | [|] | | s m e]; try exact I.
  now rewrite SFsub_diag.
Qed.

Lemma div_zero_r (r : float) : inf_or_nan (r / 0)%float.
Proof.
  unfold inf_or_nan. rewrite div_spec. change (Prim2SF 0) with (S754_zero false).
  now destruct (Prim2SF r) as [s | s | | s m e].
Qed.

Lemma sqrt_inf_or_nan (t : float) : inf_or_nan t -> pos_inf_or_nan (PrimFloat.sqrt t).
Proof.
  unfold inf_or_nan, pos_inf_or_nan. rewrite sqrt_spec.
  now destruct (Prim2SF t) as [s | [|] | | s m e].
Qed.

Lemma mul_zero_inf (s t : float) :
  zero_or_nan s -> pos_inf_or_nan t -> (s * t)%float = nan.
Proof.
  unfold zero_or_nan, pos_inf_or_nan. intros Hs Ht. apply Prim2SF_nan.
  rewrite mul_spec.
  destruct (Prim2SF s) as [a | a | | a m e]; try contradiction;
    destruct (Prim2SF t) as [b | [|] | | b m' e']; try contradiction; reflexivity.
Qed.

Lemma div_nan_r (x : float) : (x / nan)%float = nan.
Proof.
  apply Prim2SF_nan. rewrite div_spec. change (Prim2SF nan) with S754_nan.
  now destruct (Prim2SF x).
Qed.

(** The cached [s] of one observation. *)
Lemma s_of_one_observation (x : float) :
  zero_or_nan ((0 + x * x) / 1 - (0 + x) / 1 * ((0 + x) / 1))%float.
Proof. rewrite !div_one, mul_add_zero_l. apply sub_add_zero_l_self. Qed.

Lemma Gstar_one_observation {L : Library float} (g : GetisOrd float) :
  GetisOrd_inv g -> length (g_data g) = 1 -> GetisOrd_Gstar g 0 = Ok nan.
Proof.
  intros (Hdims & Hwf & Hmean & Hs) Hlen.
  injection Hdims as Hrows Hcols.
  destruct (Dense_RowView_ok (g_locality g) 0 Hwf) as (v & Hv & Hlenv & _);
    [rewrite Hrows, Hlen; cbn; lia|].
  rewrite Hcols in Hlenv.
  destruct (Dot_returns v (g_data g) Hlenv) as (d1 & Hd1).
  destruct (Dot_returns v v eq_refl) as (d2 & Hd2).
  assert (Hzero : zero_or_nan (g_s g)).
  { rewrite Hs, Hmean. destruct (g_data g) as [|x [|? ?]]; try discriminate.
    apply s_of_one_observation. }
  unfold GetisOrd_Gstar, Vector_Len. rewrite Hv. cbn [bind].
  rewrite Hd1, Hd2, Hlen. cbn [bind]. f_equal. float_ops.
  change (float_of_int (Z.of_nat 1) - float_of_int 1)%float with 0%float.
  rewrite (mul_zero_inf (g_s g) _ Hzero (sqrt_inf_or_nan _ (div_zero_r _))).
  apply div_nan_r.
Qed.

Lemma E_one_observation (m : Moran float) :
  length (m_data m) = 1 -> Moran_E m = neg_infinity.
Proof. intros Hlen. unfold Moran_E. rewrite Hlen. reflexivity. Qed.

(** ** Engines the package produces *)
Section Reachable.
Context {F : Type} `{Arith F}.

Lemma reachable_Moran_inv (m : Moran F) : Moran_reachable m -> Moran_inv m.
Proof.
  intros Hreach. induction Hreach as [data locality m Hnew | | | | ].
  - exact (NewMoran_inv data locality m Hnew).
  - now apply Setters_Moran_Reset_inv.
  - now apply Setters_Moran_SetData_inv.
  - now apply Setters_Moran_SetLocality_inv.
  - now apply NilReset_Moran_Reset_inv.
Qed.

Lemma reachable_GetisOrd_inv (g : GetisOrd F) :
  GetisOrd_reachable g -> GetisOrd_inv g.
Proof.
  intros Hreach.
  induction Hreach as [data locality g Hnew | data [ws|] locality g Hnew | | | | ].
  - exact (NewGetisOrd_inv data locality g Hnew).
  - discriminate.
  - exact (NewGetisOrd_inv data locality g Hnew).
  - now apply Setters_GetisOrd_Reset_inv.
  - now apply Setters_GetisOrd_SetData_inv.
  - now apply Setters_GetisOrd_SetLocality_inv.
  - now apply NilReset_GetisOrd_Reset_inv.
Qed.

Lemma map_nth_indices (v : list F) (d : F) :
  map (fun j => nth j v d) (seq 0 (length v)) = v.
Proof.
  apply (nth_ext _ _ d d); [now rewrite length_map, length_seq|].
  intros j Hj. rewrite length_map, length_seq in Hj.
  rewrite (nth_indep _ d (nth 0 v d))
    by (rewrite length_map, length_seq; exact Hj).
  rewrite (map_nth (fun j => nth j v d) (seq 0 (length v)) 0 j).
  now rewrite seq_nth.
Qed.

End Reachable.

(** * The claims *)

(** C1, as stated, fails: the stateless function asks the library for the
    sum of the matrix of the caller, the engine for the sum of its own dense
    copy.  With a library that adds a matrix of the caller column by column
    (the order of the storage behind a transposed view), on four
    observations and a locality that is not symmetric, [I] and [Z] of the
    two differ in their last bits. *)
Lemma GlobalMoransI_differs_by_columns :
  exists (m : Moran float) (i v z : float),
    NewMoran data4 weights4 = Ok m
    /\ Moran_I m = Ok i /\ Moran_Var m = Ok v /\ Moran_Z m = Ok z
    /\ @Weighted.GlobalMoransI float _ library_by_columns data4 None weights4
       <> Ok (i, v, z).
Proof.
  eexists. eexists. eexists. eexists.
  split; [vm_compute; reflexivity|].
  split; [vm_compute; reflexivity|].
  split; [vm_compute; reflexivity|].
  split; [vm_compute; reflexivity|].
  intros Heq.
  apply (f_equal (fun r => match r with
                           | Ok (i, _, _) => Prim2SF i
                           | Panic _ => S754_nan
                           end)) in Heq.
  vm_compute in Heq. discriminate.
Qed.

(** C1, amended: for every data vector and every square locality matrix of
    the dimension of the data, in whatever arithmetic the code runs and
    whatever the order in which the library adds,
    [GlobalMoransI(data, nil, locality)] returns the [Var] that [Var()]
    returns on the engine [NewMoran(data, locality)], bit for bit, and an [I]
    and a [Z] computed by the expressions of [I()] and [Z()] from the same
    [num], [den], [E] and [Var], with the library's sum of the caller's
    locality where the engine has the sum of its dense copy.  The three values
    are those of the engine, bit for bit, whenever the two sums are equal. *)
Theorem GlobalMoransI_matches_Moran {F : Type} `{Arith F} {L : Library F}
    (data : list F) (locality : Matrix F) :
  Dims locality = (length data, length data) ->
  exists (m : Moran F) (i v z i' z' : F),
    NewMoran data locality = Ok m
    /\ Moran_I m = Ok i /\ Moran_Var m = Ok v /\ Moran_Z m = Ok z
    /\ Weighted.GlobalMoransI data None locality = Ok (i', v, z')
    /\ (exists num den : F,
          let n := of_int (Z.of_nat (length data)) in
          i = (n * num / (Sum (Dense_Matrix (m_locality m)) * den))%f64
          /\ i' = (n * num / (mat_Sum locality * den))%f64)
    /\ z' = ((i' - Moran_E m) / sqrt v)%f64
    /\ (mat_Sum locality = Sum (Dense_Matrix (m_locality m)) ->
        i' = i /\ z' = z).
Proof.
  intros Hdims.
  pose (m := {| m_data := data; m_mean := Mean data;
                m_locality := DenseCopyOf locality |}).
  assert (Hm : Dense_Dims (m_locality m) = (length (m_data m), length (m_data m)))
    by (cbn; now rewrite Dims_DenseCopyOf).
  assert (Hentry : forall i j, i < length data -> j < length data ->
            entry (Dense_Matrix (DenseCopyOf locality)) i j = entry locality i j)
    by (intros i j Hi Hj; apply entry_DenseCopyOf; rewrite Hdims; cbn; lia).
  pose proof (Moran_I_loop m Hm) as HI.
  pose proof (Moran_Var_loop m Hm) as HV.
  pose proof (GlobalMoransI_loop data locality Hdims) as HG.
  cbn [m m_data m_mean m_locality] in HI, HV.
  rewrite (I_loop_ext _ (entry locality) data (Mean data) Hentry) in HI.
  rewrite (Var_loop_ext _ (entry locality) data (Mean data) Hentry) in HV.
  destruct (I_loop (entry locality) data (Mean data)) as [num den].
  exists m. do 5 eexists.
  split; [now apply NewMoran_ok|].
  split; [exact HI|]. split; [exact HV|].
  split; [unfold Moran_Z; fold m in HI, HV; rewrite HI, HV; reflexivity|].
  split; [exact HG|].
  split; [exists num, den; split; reflexivity|].
  split; [reflexivity|].
  intros Hsum. cbn [m m_locality] in Hsum. rewrite Hsum. split; reflexivity.
Qed.

Lemma GlobalMoransI_matches_Moran_witness :
  exists (m : Moran float) (i v z i' z' : float),
    NewMoran data10 path10 = Ok m
    /\ Moran_I m = Ok i /\ Moran_Var m = Ok v /\ Moran_Z m = Ok z
    /\ Weighted.GlobalMoransI data10 None path10 = Ok (i', v, z')
    /\ (exists num den : float,
          let n := of_int (Z.of_nat (length data10)) in
          i = (n * num / (Sum (Dense_Matrix (m_locality m)) * den))%f64
          /\ i' = (n * num / (mat_Sum path10 * den))%f64)
    /\ z' = ((i' - Moran_E m) / sqrt v)%f64
    /\ (mat_Sum path10 = Sum (Dense_Matrix (m_locality m)) ->
        i' = i /\ z' = z).
Proof. apply (GlobalMoransI_matches_Moran data10 path10). reflexivity. Defined.

(** C2: on every [Moran] engine the package produces, holding data [x] of
    length [n] and locality [w], the cached mean is the arithmetic mean
    [sum(x) / n] of [x] and [I()] returns [n * num / (sum(w) * den)], with
    [num] the double sum of [w i j * (x i - mean) * (x j - mean)] and [den]
    the sum of [(x i - mean) * (x i - mean)].  This is so in [float64], as in
    any arithmetic: every sum is accumulated from zero in index order (the
    double sums row by row) and the products are associated as written. *)
Theorem Moran_I_formula {F : Type} `{Arith F} (m : Moran F) :
  Moran_reachable m ->
  let len := length (m_data m) in
  let n := of_int (Z.of_nat len) in
  let x := fun i => nth i (m_data m) zero in
  let w := entry (Dense_Matrix (m_locality m)) in
  let mean := (running_sum (m_data m) / n)%f64 in
  let num :=
    running_sum
      (tabulate len len (fun i j => w i j * (x i - mean) * (x j - mean))%f64) in
  let den :=
    running_sum (map (fun i => (x i - mean) * (x i - mean))%f64 (seq 0 len)) in
  let sum_w := running_sum (tabulate len len w) in
  m_mean m = mean
  /\ Moran_I m = Ok (n * num / (sum_w * den))%f64.
Proof.
  intros Hreach len n x w mean num den sum_w.
  destruct (reachable_Moran_inv m Hreach) as (Hdims & Hwf & Hmean).
  split; [exact Hmean|].
  rewrite (Moran_I_loop m Hdims), I_loop_running, Sum_running, Hmean.
  cbn [Dense_Matrix Dims]. rewrite Hdims. reflexivity.
Qed.

Lemma Moran_I_formula_witness :
  let m := moran10 in
  let len := length (m_data m) in
  let n := of_int (Z.of_nat len) in
  let x := fun i => nth i (m_data m) zero in
  let w := entry (Dense_Matrix (m_locality m)) in
  let mean := (running_sum (m_data m) / n)%f64 in
  let num :=
    running_sum
      (tabulate len len (fun i j => w i j * (x i - mean) * (x j - mean))%f64) in
  let den :=
    running_sum (map (fun i => (x i - mean) * (x i - mean))%f64 (seq 0 len)) in
  let sum_w := running_sum (tabulate len len w) in
  m_mean m = mean
  /\ Moran_I m = Ok (n * num / (sum_w * den))%f64.
Proof.
  apply (Moran_I_formula moran10).
  apply (reach_NewMoran data10 path10). vm_compute. reflexivity.
Defined.

(** C3: on every [Moran] engine the package produces with [n >= 4]
    observations, [E()] is [-1 / (n - 1)] and [Var()] returns
    [(a - b) / c - E * E] for the sums [s0], [s1] (halved), [s2], [var2],
    [var4] and the terms [a], [b], [c], [d] of the specification.  This is so
    in [float64], as in any arithmetic: every sum is accumulated from zero in
    index order, the squares and the fourth power are the products
    [v * v] of the code, and the terms are associated as written. *)
Theorem Moran_Var_formula {F : Type} `{Arith F} (m : Moran F) :
  Moran_reachable m ->
  4 <= length (m_data m) ->
  let len := length (m_data m) in
  let n := of_int (Z.of_nat len) in
  let x := fun i => nth i (m_data m) zero in
  let w := entry (Dense_Matrix (m_locality m)) in
  let mean := (running_sum (m_data m) / n)%f64 in
  let sq := fun i => ((x i - mean) * (x i - mean))%f64 in
  let both := fun i j => (w i j + w j i)%f64 in
  let row := fun i => running_sum (map (both i) (seq 0 len)) in
  let s0 := running_sum (tabulate len len w) in
  let s1 :=
    (running_sum (tabulate len len (fun i j => both i j * both i j)) * half)%f64 in
  let s2 := running_sum (map (fun i => row i * row i)%f64 (seq 0 len)) in
  let var2 := running_sum (map sq (seq 0 len)) in
  let var4 := running_sum (map (fun i => sq i * sq i)%f64 (seq 0 len)) in
  let a := (n * ((n * n - of_int 3 * n + of_int 3) * s1 - n * s2
                 + of_int 3 * s0 * s0))%f64 in
  let c := ((n - of_int 1) * (n - of_int 2) * (n - of_int 3) * s0 * s0)%f64 in
  let d := (var4 / (var2 * var2))%f64 in
  let b := (d * ((n * n - n) * s1 - of_int 2 * n * s2 + of_int 6 * s0 * s0))%f64 in
  let E := (of_int (-1) / of_int (Z.of_nat len - 1))%f64 in
  Moran_E m = E
  /\ Moran_Var m = Ok ((a - b) / c - E * E)%f64.
Proof.
  intros Hreach Hfour len n x w mean sq both row s0 s1 s2 var2 var4 a c d b E.
  destruct (reachable_Moran_inv m Hreach) as (Hdims & Hwf & Hmean).
  split; [reflexivity|].
  rewrite (Moran_Var_loop m Hdims), Var_loop_running, Hmean. reflexivity.
Qed.

Lemma Moran_Var_formula_witness :
  let m := moran10 in
  let len := length (m_data m) in
  let n := of_int (Z.of_nat len) in
  let x := fun i => nth i (m_data m) zero in
  let w := entry (Dense_Matrix (m_locality m)) in
  let mean := (running_sum (m_data m) / n)%f64 in
  let sq := fun i => ((x i - mean) * (x i - mean))%f64 in
  let both := fun i j => (w i j + w j i)%f64 in
  let row := fun i => running_sum (map (both i) (seq 0 len)) in
  let s0 := running_sum (tabulate len len w) in
  let s1 :=
    (running_sum (tabulate len len (fun i j => both i j * both i j)) * half)%f64 in
  let s2 := running_sum (map (fun i => row i * row i)%f64 (seq 0 len)) in
  let var2 := running_sum (map sq (seq 0 len)) in
  let var4 := running_sum (map (fun i => sq i * sq i)%f64 (seq 0 len)) in
  let a := (n * ((n * n - of_int 3 * n + of_int 3) * s1 - n * s2
                 + of_int 3 * s0 * s0))%f64 in
  let c := ((n - of_int 1) * (n - of_int 2) * (n - of_int 3) * s0 * s0)%f64 in
  let d := (var4 / (var2 * var2))%f64 in
  let b := (d * ((n * n - n) * s1 - of_int 2 * n * s2 + of_int 6 * s0 * s0))%f64 in
  let E := (of_int (-1) / of_int (Z.of_nat len - 1))%f64 in
  Moran_E m = E
  /\ Moran_Var m = Ok ((a - b) / c - E * E)%f64.
Proof.
  apply (Moran_Var_formula moran10).
  - apply (reach_NewMoran data10 path10). vm_compute. reflexivity.
  - cbn. lia.
Defined.

(** C4: on every [GetisOrd] engine the package produces with [n >= 2]
    observations and for [0 <= i < n], the cached mean is [sum(x) / n], the
    cached [s] is [sum(x * x) / n - mean * mean], and [Gstar(i)] returns
    [numerator / denominator] with [wi] the row [i] of the locality,
    [ws = mean * sum(wi)], [numerator = dot(wi, data) - ws] and
    [denominator = s * sqrt((n * dot(wi, wi) - ws * ws) / (n - 1))].  This
    is so in [float64], as in any arithmetic and with any library: the sums
    of the package run in index order from zero, and the two dot products are
    the values the library's [Dot] returns, sums of the products
    [wi_k * x_k] and [wi_k * wi_k] in the library's order. *)
Theorem GetisOrd_Gstar_formula {F : Type} `{Arith F} {L : Library F}
    (g : GetisOrd F) (i : Z) :
  GetisOrd_reachable g ->
  2 <= length (g_data g) ->
  (0 <= i < Z.of_nat (length (g_data g)))%Z ->
  let len := length (g_data g) in
  let n := of_int (Z.of_nat len) in
  let x := fun j => nth j (g_data g) zero in
  let mean := (running_sum (g_data g) / n)%f64 in
  let s :=
    (running_sum (map (fun j => x j * x j) (seq 0 len)) / n - mean * mean)%f64 in
  g_mean g = mean /\ g_s g = s
  /\ exists (wi : Vector F) (dot_wi_data dot_wi_wi : F),
       Dense_RowView (g_locality g) i = Ok wi
       /\ length wi = len
       /\ (forall j, j < len ->
             nth j wi zero = entry (Dense_Matrix (g_locality g)) (Z.to_nat i) j)
       /\ Dot wi (g_data g) = Ok dot_wi_data
       /\ summed (products wi (g_data g)) dot_wi_data
       /\ Dot wi wi = Ok dot_wi_wi
       /\ summed (products wi wi) dot_wi_wi
       /\ let ws := (mean * running_sum wi)%f64 in
          let numerator := (dot_wi_data - ws)%f64 in
          let denominator :=
            (s * sqrt ((n * dot_wi_wi - ws * ws) / (n - of_int 1)))%f64 in
          GetisOrd_Gstar g i = Ok (numerator / denominator)%f64.
Proof.
  intros Hreach Htwo Hi len n x mean s.
  destruct (reachable_GetisOrd_inv g Hreach) as (Hdims & Hwf & Hmean & Hs).
  injection Hdims as Hrows Hcols.
  assert (Hs' : g_s g = s)
    by (rewrite Hs, Hmean, sum_squares_running; reflexivity).
  split; [exact Hmean|]. split; [exact Hs'|].
  destruct (Dense_RowView_ok (g_locality g) i Hwf) as (wi & Hwi & Hlen & Hnth);
    [rewrite Hrows; exact Hi|].
  rewrite Hcols in Hlen, Hnth. fold len in Hlen, Hnth.
  destruct (Dot_summed wi (g_data g) Hlen) as (d1 & Hd1 & Hsum1).
  destruct (Dot_summed wi wi eq_refl) as (d2 & Hd2 & Hsum2).
  exists wi, d1, d2. repeat (split; [assumption|]).
  unfold GetisOrd_Gstar. rewrite Hwi. cbn [bind]. rewrite Hd1, Hd2. cbn [bind].
  rewrite Sum_Vector_running, map_nth_indices, Hs', Hmean. reflexivity.
Qed.

Lemma GetisOrd_Gstar_formula_witness :
  let g := getisord10 in
  let i := 4%Z in
  let len := length (g_data g) in
  let n := of_int (Z.of_nat len) in
  let x := fun j => nth j (g_data g) zero in
  let mean := (running_sum (g_data g) / n)%f64 in
  let s :=
    (running_sum (map (fun j => x j * x j) (seq 0 len)) / n - mean * mean)%f64 in
  g_mean g = mean /\ g_s g = s
  /\ exists (wi : Vector float) (dot_wi_data dot_wi_wi : float),
       Dense_RowView (g_locality g) i = Ok wi
       /\ length wi = len
       /\ (forall j, j < len ->
             nth j wi zero = entry (Dense_Matrix (g_locality g)) (Z.to_nat i) j)
       /\ Dot wi (g_data g) = Ok dot_wi_data
       /\ summed (products wi (g_data g)) dot_wi_data
       /\ Dot wi wi = Ok dot_wi_wi
       /\ summed (products wi wi) dot_wi_wi
       /\ let ws := (mean * running_sum wi)%f64 in
          let numerator := (dot_wi_data - ws)%f64 in
          let denominator :=
            (s * sqrt ((n * dot_wi_wi - ws * ws) / (n - of_int 1)))%f64 in
          GetisOrd_Gstar g i = Ok (numerator / denominator)%f64.
Proof.
  apply (GetisOrd_Gstar_formula getisord10 4%Z).
  - apply (reach_NewGetisOrd data10 window10). vm_compute. reflexivity.
  - cbn. lia.
  - cbn. lia.
Defined.

(** C5: on a [Moran] engine kept by the package, [I()] and [Var()] return
    and [Z()] returns exactly [(I() - E()) / sqrt(Var())], where [E()] is
    [-1 / float64(n - 1)] for the held data length [n]. *)
Theorem Moran_Z_is_standardised_I {F : Type} `{Arith F} (m : Moran F) :
  Moran_inv m ->
  exists i v : F,
    Moran_I m = Ok i /\ Moran_Var m = Ok v
    /\ Moran_Z m = Ok ((i - Moran_E m) / sqrt v)%f64
    /\ Moran_E m = (of_int (-1) / of_int (Z.of_nat (length (m_data m)) - 1))%f64.
Proof.
  intros (Hdims & _ & _).
  pose proof (Moran_I_loop m Hdims) as HI.
  pose proof (Moran_Var_loop m Hdims) as HV.
  eexists. eexists. split; [exact HI|]. split; [exact HV|]. split.
  - unfold Moran_Z. rewrite HI, HV. reflexivity.
  - reflexivity.
Qed.

Lemma Moran_Z_is_standardised_I_witness :
  exists i v : float,
    Moran_I moran1 = Ok i /\ Moran_Var moran1 = Ok v
    /\ Moran_Z moran1 = Ok ((i - Moran_E moran1) / sqrt v)%f64
    /\ Moran_E moran1
       = (of_int (-1) / of_int (Z.of_nat (length (m_data moran1)) - 1))%f64.
Proof.
  apply (Moran_Z_is_standardised_I moran1).
  repeat split; vm_compute; reflexivity.
Defined.

(** C6: a constructor given a data length and locality dimensions that
    disagree panics with the dimension mismatch; a mutator ([Reset] in both
    revisions, with both parameters or with one of them nil, [SetData],
    [SetLocality]) given a value that disagrees with the other supplied
    value, or with the held counterpart, panics with the dimension mismatch
    and leaves the engine (data, locality and cached moments) as it was. *)
Theorem dimension_mismatch_rejected {F : Type} `{Arith F}
    (data : list F) (locality : Matrix F) (g : GetisOrd F) (m : Moran F) :
  (disagree (Dims locality) (length data) ->
     NewMoran data locality = Panic DimensionMismatch
     /\ NewGetisOrd data locality = Panic DimensionMismatch
     /\ Weighted.NewGetisOrd data None locality = Panic DimensionMismatch
     /\ Setters.Moran_Reset data locality m = (m, Panic DimensionMismatch)
     /\ Setters.GetisOrd_Reset data locality g = (g, Panic DimensionMismatch)
     /\ NilReset.Moran_Reset (Some data) (Some locality) m
        = (m, Panic DimensionMismatch)
     /\ NilReset.GetisOrd_Reset (Some data) (Some locality) g
        = (g, Panic DimensionMismatch))
  /\ (disagree (Dense_Dims (m_locality m)) (length data) ->
     Setters.Moran_SetData data m = (m, Panic DimensionMismatch)
     /\ NilReset.Moran_Reset (Some data) None m = (m, Panic DimensionMismatch))
  /\ (disagree (Dense_Dims (g_locality g)) (length data) ->
     Setters.GetisOrd_SetData data g = (g, Panic DimensionMismatch)
     /\ NilReset.GetisOrd_Reset (Some data) None g = (g, Panic DimensionMismatch))
  /\ (disagree (Dims locality) (length (m_data m)) ->
     Setters.Moran_SetLocality locality m = (m, Panic DimensionMismatch)
     /\ NilReset.Moran_Reset None (Some locality) m = (m, Panic DimensionMismatch))
  /\ (disagree (Dims locality) (length (g_data g)) ->
     Setters.GetisOrd_SetLocality locality g = (g, Panic DimensionMismatch)
     /\ NilReset.GetisOrd_Reset None (Some locality) g
        = (g, Panic DimensionMismatch)).
Proof.
  split; [|split; [|split; [|split]]]; intros Hdis.
  - destruct (New_rejected data locality Hdis) as [HM HG].
    destruct (Reset_pair_rejected data locality g m Hdis) as (H1 & H2 & H3 & H4).
    rewrite Weighted_NewGetisOrd_nil. now repeat split.
  - rewrite NilReset_Moran_Reset_data.
    split; now apply (proj1 (SetData_rejected data g m)).
  - rewrite NilReset_GetisOrd_Reset_data.
    split; now apply (proj2 (SetData_rejected data g m)).
  - rewrite NilReset_Moran_Reset_locality.
    split; now apply (proj1 (SetLocality_rejected locality g m)).
  - rewrite NilReset_GetisOrd_Reset_locality.
    split; now apply (proj2 (SetLocality_rejected locality g m)).
Qed.

Lemma dimension_mismatch_rejected_witness :
  let data := [1%float; 2%float] in
  (NewMoran data three_by_three = Panic DimensionMismatch
   /\ Setters.Moran_Reset data three_by_three moran1
      = (moran1, Panic DimensionMismatch))
  /\ Setters.Moran_SetData data moran1 = (moran1, Panic DimensionMismatch)
  /\ Setters.GetisOrd_SetData data getisord1 = (getisord1, Panic DimensionMismatch)
  /\ Setters.Moran_SetLocality three_by_three moran1
     = (moran1, Panic DimensionMismatch)
  /\ Setters.GetisOrd_SetLocality three_by_three getisord1
     = (getisord1, Panic DimensionMismatch).
Proof.
  intros data.
  destruct (dimension_mismatch_rejected data three_by_three getisord1 moran1)
    as (H1 & H2 & H3 & H4 & H5).
  assert (D1 : disagree (Dims three_by_three) (length data)) by (left; cbn; lia).
  assert (D2 : disagree (Dense_Dims (m_locality moran1)) (length data))
    by (left; cbn; lia).
  assert (D3 : disagree (Dense_Dims (g_locality getisord1)) (length data))
    by (left; cbn; lia).
  assert (D4 : disagree (Dims three_by_three) (length (m_data moran1)))
    by (left; cbn; lia).
  assert (D5 : disagree (Dims three_by_three) (length (g_data getisord1)))
    by (left; cbn; lia).
  split; [split|split; [|split; [|split]]].
  - exact (proj1 (H1 D1)).
  - exact (proj1 (proj2 (proj2 (proj2 (H1 D1))))).
  - exact (proj1 (H2 D2)).
  - exact (proj1 (H3 D3)).
  - exact (proj1 (H4 D4)).
  - exact (proj1 (H5 D5)).
Defined.

(** C7, as stated, fails: an empty slice that is not nil is not a non-empty
    weighting, and both functions panic on it. *)
Lemma empty_weights_rejected :
  let weights : option (list float) := Some [] in
  nonempty weights = false
  /\ Weighted.NewGetisOrd data10 weights window10 = Panic NotImplemented
  /\ Weighted.GlobalMoransI data10 weights path10 = Panic NotImplemented.
Proof. cbn. repeat split. Qed.

(** C7, amended: [NewGetisOrd] and [GlobalMoransI] panic with the
    unimplemented-weights message when and only when the weights argument is
    not nil (an empty slice that is not nil is rejected too); with nil
    weights [NewGetisOrd] is the unweighted constructor and [GlobalMoransI]
    goes on to the dimension check and the unweighted computation. *)
Theorem NotImplemented_iff_weights_not_nil {F : Type} `{Arith F}
    {L : Library F} (data : list F) (weights : option (list F)) (locality : Matrix F) :
  (Weighted.NewGetisOrd data weights locality = Panic NotImplemented
   <-> weights <> None)
  /\ (Weighted.GlobalMoransI data weights locality = Panic NotImplemented
      <-> weights <> None)
  /\ Weighted.NewGetisOrd data None locality = NewGetisOrd data locality
  /\ (disagree (Dims locality) (length data) ->
      Weighted.GlobalMoransI data None locality = Panic DimensionMismatch)
  /\ (Dims locality = (length data, length data) ->
      exists ivz, Weighted.GlobalMoransI data None locality = Ok ivz).
Proof.
  split; [|split; [|split; [|split]]].
  - destruct weights as [ws|]; split; try discriminate; try reflexivity.
    + intros Hnil. now apply NewGetisOrd_nil_weights in Hnil.
    + intros Hnone. now contradiction Hnone.
  - destruct weights as [ws|]; split; try discriminate; try reflexivity.
    + intros Hnil. now apply GlobalMoransI_nil_weights in Hnil.
    + intros Hnone. now contradiction Hnone.
  - reflexivity.
  - intros Hdis. apply mismatch_true in Hdis.
    unfold Weighted.GlobalMoransI. now rewrite Hdis.
  - intros Hdims. rewrite (GlobalMoransI_loop data locality Hdims). eauto.
Qed.

Lemma NotImplemented_iff_weights_not_nil_witness :
  Weighted.NewGetisOrd data10 (Some [1%float]) window10 = Panic NotImplemented
  /\ Weighted.GlobalMoransI [1%float; 2%float] None three_by_three
     = Panic DimensionMismatch
  /\ exists ivz, Weighted.GlobalMoransI data10 None path10 = Ok ivz.
Proof.
  destruct (NotImplemented_iff_weights_not_nil data10 (Some [1%float]) window10)
    as ([_ H1] & _).
  destruct (NotImplemented_iff_weights_not_nil [1%float; 2%float] None
              three_by_three) as (_ & _ & _ & H2 & _).
  destruct (NotImplemented_iff_weights_not_nil data10 None path10)
    as (_ & _ & _ & _ & H3).
  split; [apply H1; discriminate|].
  split; [apply H2; left; cbn; lia | apply H3; reflexivity].
Defined.

(** C8: on an engine kept by the package (its invariant holds), [Reset] with
    the held data and locality, and [Reset] with both parameters nil, return
    and leave an engine on which [I], [E], [Var], [Z] (for [Moran]) and
    [Len], [Gstar] (for [GetisOrd]) return what they returned before. *)
Theorem Reset_held_values_keeps_queries {F : Type} `{Arith F}
    {L : Library F} (g : GetisOrd F) (m : Moran F) :
  Moran_inv m -> GetisOrd_inv g ->
  (exists m',
      NilReset.Moran_Reset (Some (m_data m)) (Some (Dense_Matrix (m_locality m))) m
      = (m', Ok tt) /\ Moran_same_queries m m')
  /\ (exists m',
      NilReset.Moran_Reset None None m = (m', Ok tt) /\ Moran_same_queries m m')
  /\ (exists m',
      Setters.Moran_Reset (m_data m) (Dense_Matrix (m_locality m)) m = (m', Ok tt)
      /\ Moran_same_queries m m')
  /\ (exists g',
      NilReset.GetisOrd_Reset (Some (g_data g))
        (Some (Dense_Matrix (g_locality g))) g = (g', Ok tt)
      /\ GetisOrd_same_queries g g')
  /\ (exists g',
      NilReset.GetisOrd_Reset None None g = (g', Ok tt)
      /\ GetisOrd_same_queries g g')
  /\ (exists g',
      Setters.GetisOrd_Reset (g_data g) (Dense_Matrix (g_locality g)) g
      = (g', Ok tt) /\ GetisOrd_same_queries g g').
Proof.
  intros Hm Hg.
  destruct (Moran_Reset_held m Hm) as [HM1 HM2].
  destruct (GetisOrd_Reset_held g Hg) as [HG1 HG2].
  repeat split; (exists m || exists g);
    (split; [assumption || reflexivity | now repeat split]).
Qed.

Lemma Reset_held_values_keeps_queries_witness :
  exists m' g',
    NilReset.Moran_Reset (Some (m_data moran1))
      (Some (Dense_Matrix (m_locality moran1))) moran1 = (m', Ok tt)
    /\ Moran_same_queries moran1 m'
    /\ NilReset.GetisOrd_Reset (Some (g_data getisord1))
         (Some (Dense_Matrix (g_locality getisord1))) getisord1 = (g', Ok tt)
    /\ GetisOrd_same_queries getisord1 g'.
Proof.
  destruct (Reset_held_values_keeps_queries getisord1 moran1)
    as ((m' & Hm' & Hq) & _ & _ & (g' & Hg' & Hgq) & _).
  - repeat split; vm_compute; reflexivity.
  - repeat split; vm_compute; reflexivity.
  - exists m', g'. auto.
Defined.

(** C9: one observation and a [1 x 1] locality: both constructors return,
    [E()] returns minus infinity and [Gstar(0)] returns NaN, whatever the
    observation and the weight; neither call panics. *)
Theorem one_observation_is_non_finite {L : Library float}
    (x : float) (locality : Matrix float) :
  Dims locality = (1, 1) ->
  exists (m : Moran float) (g : GetisOrd float),
    NewMoran [x] locality = Ok m
    /\ NewGetisOrd [x] locality = Ok g
    /\ Moran_E m = neg_infinity
    /\ GetisOrd_Gstar g 0 = Ok nan
    /\ non_finite neg_infinity = true
    /\ non_finite nan = true.
Proof.
  intros Hdims.
  assert (HM : NewMoran [x] locality
               = Ok {| m_data := [x]; m_mean := Mean [x];
                       m_locality := DenseCopyOf locality |})
    by now apply NewMoran_ok.
  assert (HG : NewGetisOrd [x] locality
               = Ok {| g_data := [x];
                       g_locality := DenseCopyOf locality;
                       g_mean := Mean [x];
                       g_s := (sum_squares [x] / of_int (Z.of_nat (length [x]))
                               - Mean [x] * Mean [x])%f64 |})
    by now apply NewGetisOrd_ok.
  eexists. eexists. split; [exact HM|]. split; [exact HG|].
  split; [now apply E_one_observation|].
  split; [|split; reflexivity].
  apply Gstar_one_observation; [|reflexivity].
  exact (NewGetisOrd_inv [x] locality _ HG).
Qed.

Lemma one_observation_is_non_finite_witness :
  exists (m : Moran float) (g : GetisOrd float),
    NewMoran [3%float] one_by_one = Ok m
    /\ NewGetisOrd [3%float] one_by_one = Ok g
    /\ Moran_E m = neg_infinity
    /\ GetisOrd_Gstar g 0 = Ok nan
    /\ non_finite neg_infinity = true
    /\ non_finite nan = true.
Proof. apply (one_observation_is_non_finite 3%float one_by_one). reflexivity. Defined.

(** C10: the weights check comes first: with weights that are not nil and a
    locality whose dimensions disagree with the data length, the panic is the
    unimplemented-weights one, not the dimension mismatch. *)
Theorem weights_check_precedes_dimension_check {F : Type} `{Arith F}
    {L : Library F} (data weights : list F) (locality : Matrix F) :
  disagree (Dims locality) (length data) ->
  Weighted.NewGetisOrd data (Some weights) locality = Panic NotImplemented
  /\ Weighted.GlobalMoransI data (Some weights) locality = Panic NotImplemented
  /\ @Panic (GetisOrd F) NotImplemented <> Panic DimensionMismatch.
Proof. intros _. repeat split. discriminate. Qed.

Lemma weights_check_precedes_dimension_check_witness :
  Weighted.NewGetisOrd [1%float; 2%float] (Some [1%float; 1%float]) three_by_three
  = Panic NotImplemented
  /\ Weighted.GlobalMoransI [1%float; 2%float] (Some [1%float; 1%float])
       three_by_three = Panic NotImplemented
  /\ @Panic (GetisOrd float) NotImplemented <> Panic DimensionMismatch.
Proof.
  apply (weights_check_precedes_dimension_check
           [1%float; 2%float] [1%float; 1%float] three_by_three).
  left. cbn. lia.
Defined.

(** * Further properties *)

(** X1: every [Moran] engine the package can produce (by [NewMoran], or left
    by [Reset], [SetData] or [SetLocality], returning or panicking) has a
    square locality of the dimension of its data and a cached mean equal to
    the mean of its data. *)
Theorem Moran_reachable_inv {F : Type} `{Arith F} (m : Moran F) :
  Moran_reachable m -> Moran_inv m.
Proof.
  induction 1 as [data locality m Hnew | | | | ].
  - exact (NewMoran_inv data locality m Hnew).
  - now apply Setters_Moran_Reset_inv.
  - now apply Setters_Moran_SetData_inv.
  - now apply Setters_Moran_SetLocality_inv.
  - now apply NilReset_Moran_Reset_inv.
Qed.

Lemma Moran_reachable_inv_witness :
  Moran_inv (fst (Setters.Moran_SetData [5%float] moran1)).
Proof.
  apply Moran_reachable_inv. apply reach_Moran_SetData.
  apply (reach_NewMoran [3%float] one_by_one). reflexivity.
Defined.

(** X2: every [GetisOrd] engine the package can produce has a square locality
    of the dimension of its data and cached [mean] and [s] equal to the
    moments of its data. *)
Theorem GetisOrd_reachable_inv {F : Type} `{Arith F} (g : GetisOrd F) :
  GetisOrd_reachable g -> GetisOrd_inv g.
Proof.
  induction 1 as [data locality g Hnew | data weights locality g Hnew | | | | ].
  - exact (NewGetisOrd_inv data locality g Hnew).
  - destruct weights as [ws|]; [discriminate|].
    exact (NewGetisOrd_inv data locality g Hnew).
  - now apply Setters_GetisOrd_Reset_inv.
  - now apply Setters_GetisOrd_SetData_inv.
  - now apply Setters_GetisOrd_SetLocality_inv.
  - now apply NilReset_GetisOrd_Reset_inv.
Qed.

Lemma GetisOrd_reachable_inv_witness :
  GetisOrd_inv (fst (NilReset.GetisOrd_Reset (Some [5%float]) None getisord1)).
Proof.
  apply GetisOrd_reachable_inv. apply reach_GetisOrd_NilReset.
  apply (reach_NewGetisOrd [3%float] one_by_one). reflexivity.
Defined.

(** The example test [ExampleGlobalMoransI_1] (path graph on ten points,
    data [0,0,0,1,1,1,0,1,0,0]) prints [I=0.1111 z-score=0.6335]: in binary64,
    the weights of the dense matrix of the test added row by row,
    [GlobalMoransI] returns I = 0.11111111111111116, Var = 0.1230681298582533
    and Z = 0.63345342063461263 (written below in hexadecimal, which is
    exact). *)
Example ExampleGlobalMoransI_1 :
  Weighted.GlobalMoransI data10 None path10
  = Ok (0x1.c71c71c71c72p-4, 0x1.f816498ebcbd6p-4, 0x1.445401ba5479fp-1)%float.
Proof. vm_compute. reflexivity. Qed.

(** X3: in whatever arithmetic the code runs (binary64 included), on a
    [Moran] engine kept by the package, [I()] returns
    [n * num / (sum(w) * den)] where every sum is accumulated from zero in
    index order (the double sums row by row) and the products are associated
    as in the code. *)
Theorem Moran_I_running {F : Type} `{Arith F} (m : Moran F) :
  Moran_inv m ->
  let len := length (m_data m) in
  let n := of_int (Z.of_nat len) in
  let x := fun i => nth i (m_data m) zero in
  let w := entry (Dense_Matrix (m_locality m)) in
  let mean := (running_sum (m_data m) / n)%f64 in
  let num :=
    running_sum
      (tabulate len len (fun i j => w i j * (x i - mean) * (x j - mean))%f64) in
  let den :=
    running_sum (map (fun i => (x i - mean) * (x i - mean))%f64 (seq 0 len)) in
  m_mean m = mean
  /\ Moran_I m = Ok (n * num / (running_sum (tabulate len len w) * den))%f64.
Proof.
  intros (Hdims & Hwf & Hmean) len n x w mean num den.
  split; [exact Hmean|].
  rewrite (Moran_I_loop m Hdims), I_loop_running, Sum_running, Hmean.
  cbn [Dense_Matrix Dims]. rewrite Hdims. reflexivity.
Qed.

Lemma Moran_I_running_witness :
  let m := moran10 in
  let len := length (m_data m) in
  let n := of_int (Z.of_nat len) in
  let x := fun i => nth i (m_data m) zero in
  let w := entry (Dense_Matrix (m_locality m)) in
  let mean := (running_sum (m_data m) / n)%f64 in
  let num :=
    running_sum
      (tabulate len len (fun i j => w i j * (x i - mean) * (x j - mean))%f64) in
  let den :=
    running_sum (map (fun i => (x i - mean) * (x i - mean))%f64 (seq 0 len)) in
  m_mean m = mean
  /\ Moran_I m = Ok (n * num / (running_sum (tabulate len len w) * den))%f64.
Proof.
  apply (Moran_I_running moran10). repeat split; vm_compute; reflexivity.
Defined.

(** X4: in whatever arithmetic the code runs, on a [Moran] engine kept by the
    package, [Var()] returns [(a - b) / c - e * e] where [s0], [s1], [s2],
    [var2] and [var4] are accumulated from zero in index order and [a], [b],
    [c], [d] are associated as in the code. *)
Theorem Moran_Var_running {F : Type} `{Arith F} (m : Moran F) :
  Moran_inv m ->
  let len := length (m_data m) in
  let n := of_int (Z.of_nat len) in
  let x := fun i => nth i (m_data m) zero in
  let w := entry (Dense_Matrix (m_locality m)) in
  let mean := m_mean m in
  let v := fun i => ((x i - mean) * (x i - mean))%f64 in
  let p := fun i => running_sum (map (fun j => w i j + w j i)%f64 (seq 0 len)) in
  let s0 := running_sum (tabulate len len w) in
  let s1 :=
    (running_sum
       (tabulate len len (fun i j => (w i j + w j i) * (w i j + w j i)))
     * half)%f64 in
  let s2 := running_sum (map (fun i => p i * p i)%f64 (seq 0 len)) in
  let var2 := running_sum (map v (seq 0 len)) in
  let var4 := running_sum (map (fun i => v i * v i)%f64 (seq 0 len)) in
  let a := (n * ((n * n - of_int 3 * n + of_int 3) * s1 - n * s2
                 + of_int 3 * s0 * s0))%f64 in
  let c := ((n - of_int 1) * (n - of_int 2) * (n - of_int 3) * s0 * s0)%f64 in
  let d := (var4 / (var2 * var2))%f64 in
  let b := (d * ((n * n - n) * s1 - of_int 2 * n * s2 + of_int 6 * s0 * s0))%f64 in
  let e := (of_int (-1) / of_int (Z.of_nat len - 1))%f64 in
  Moran_Var m = Ok ((a - b) / c - e * e)%f64.
Proof.
  intros (Hdims & Hwf & Hmean) len n x w mean v p s0 s1 s2 var2 var4 a c d b e.
  rewrite (Moran_Var_loop m Hdims), Var_loop_running. reflexivity.
Qed.

Lemma Moran_Var_running_witness :
  let m := moran10 in
  let len := length (m_data m) in
  let n := of_int (Z.of_nat len) in
  let x := fun i => nth i (m_data m) zero in
  let w := entry (Dense_Matrix (m_locality m)) in
  let mean := m_mean m in
  let v := fun i => ((x i - mean) * (x i - mean))%f64 in
  let p := fun i => running_sum (map (fun j => w i j + w j i)%f64 (seq 0 len)) in
  let s0 := running_sum (tabulate len len w) in
  let s1 :=
    (running_sum
       (tabulate len len (fun i j => (w i j + w j i) * (w i j + w j i)))
     * half)%f64 in
  let s2 := running_sum (map (fun i => p i * p i)%f64 (seq 0 len)) in
  let var2 := running_sum (map v (seq 0 len)) in
  let var4 := running_sum (map (fun i => v i * v i)%f64 (seq 0 len)) in
  let a := (n * ((n * n - of_int 3 * n + of_int 3) * s1 - n * s2
                 + of_int 3 * s0 * s0))%f64 in
  let c := ((n - of_int 1) * (n - of_int 2) * (n - of_int 3) * s0 * s0)%f64 in
  let d := (var4 / (var2 * var2))%f64 in
  let b := (d * ((n * n - n) * s1 - of_int 2 * n * s2 + of_int 6 * s0 * s0))%f64 in
  let e := (of_int (-1) / of_int (Z.of_nat len - 1))%f64 in
  Moran_Var m = Ok ((a - b) / c - e * e)%f64.
Proof.
  apply (Moran_Var_running moran10). repeat split; vm_compute; reflexivity.
Defined.

(** ** Outcomes of the mutators *)

(** X6: [Reset(data, locality)] on a [Moran] engine the package produced is
    all or nothing, in both revisions and whatever data and locality the
    engine holds: when the dimensions of [locality] disagree with the length
    of [data] it panics and the engine is unchanged; otherwise it returns and
    the engine is the one [NewMoran(data, locality)] returns.  (The zero
    value of the type, which no constructor returns, is not such an
    engine.) *)
Theorem Moran_Reset_all_or_nothing {F : Type} `{Arith F}
    (data : list F) (locality : Matrix F) (m : Moran F) :
  Moran_reachable m ->
  (disagree (Dims locality) (length data)
   /\ NewMoran data locality = Panic DimensionMismatch
   /\ Setters.Moran_Reset data locality m = (m, Panic DimensionMismatch)
   /\ NilReset.Moran_Reset (Some data) (Some locality) m
      = (m, Panic DimensionMismatch))
  \/ (Dims locality = (length data, length data)
      /\ exists m' : Moran F,
           NewMoran data locality = Ok m'
           /\ Setters.Moran_Reset data locality m = (m', Ok tt)
           /\ NilReset.Moran_Reset (Some data) (Some locality) m = (m', Ok tt)).
Proof.
  intros _. destruct (mismatch (Dims locality) (length data)) eqn:Hmis.
  - left. apply mismatch_true in Hmis.
    destruct (New_rejected data locality Hmis) as [HN _].
    destruct (Reset_pair_rejected data locality
                {| g_data := []; g_locality := m_locality m;
                   g_mean := zero; g_s := zero |} m Hmis) as (H1 & _ & H3 & _).
    auto.
  - right. apply mismatch_false in Hmis. split; [exact Hmis|].
    eexists. split; [now apply NewMoran_ok|].
    split; [now apply Setters_Moran_Reset_ok | now apply NilReset_Moran_Reset_ok].
Qed.

Lemma Moran_Reset_all_or_nothing_witness :
  (disagree (Dims three_by_three) (length [5%float])
   /\ NewMoran [5%float] three_by_three = Panic DimensionMismatch
   /\ Setters.Moran_Reset [5%float] three_by_three moran1
      = (moran1, Panic DimensionMismatch)
   /\ NilReset.Moran_Reset (Some [5%float]) (Some three_by_three) moran1
      = (moran1, Panic DimensionMismatch))
  \/ (Dims three_by_three = (length [5%float], length [5%float])
      /\ exists m' : Moran float,
           NewMoran [5%float] three_by_three = Ok m'
           /\ Setters.Moran_Reset [5%float] three_by_three moran1 = (m', Ok tt)
           /\ NilReset.Moran_Reset (Some [5%float]) (Some three_by_three) moran1
              = (m', Ok tt)).
Proof.
  apply (Moran_Reset_all_or_nothing [5%float] three_by_three moran1).
  apply (reach_NewMoran [3%float] one_by_one). reflexivity.
Defined.

(** X7: [Reset(data, locality)] on a [GetisOrd] engine the package produced
    is all or nothing, in both revisions and whatever data and locality the
    engine holds: on a mismatch it panics and the engine is unchanged;
    otherwise it returns and the engine is the one
    [NewGetisOrd(data, locality)] returns.  (The zero value of the type,
    which no constructor returns, is not such an engine.) *)
Theorem GetisOrd_Reset_all_or_nothing {F : Type} `{Arith F}
    (data : list F) (locality : Matrix F) (g : GetisOrd F) :
  GetisOrd_reachable g ->
  (disagree (Dims locality) (length data)
   /\ NewGetisOrd data locality = Panic DimensionMismatch
   /\ Setters.GetisOrd_Reset data locality g = (g, Panic DimensionMismatch)
   /\ NilReset.GetisOrd_Reset (Some data) (Some locality) g
      = (g, Panic DimensionMismatch))
  \/ (Dims locality = (length data, length data)
      /\ exists g' : GetisOrd F,
           NewGetisOrd data locality = Ok g'
           /\ Setters.GetisOrd_Reset data locality g = (g', Ok tt)
           /\ NilReset.GetisOrd_Reset (Some data) (Some locality) g = (g', Ok tt)).
Proof.
  intros _. destruct (mismatch (Dims locality) (length data)) eqn:Hmis.
  - left. apply mismatch_true in Hmis.
    destruct (New_rejected data locality Hmis) as [_ HN].
    destruct (Reset_pair_rejected data locality g
                {| m_data := []; m_mean := zero; m_locality := g_locality g |}
                Hmis) as (_ & H2 & _ & H4).
    auto.
  - right. apply mismatch_false in Hmis. split; [exact Hmis|].
    eexists. split; [now apply NewGetisOrd_ok|].
    split; [now apply Setters_GetisOrd_Reset_ok
           | now apply NilReset_GetisOrd_Reset_ok].
Qed.

Lemma GetisOrd_Reset_all_or_nothing_witness :
  (disagree (Dims one_by_one) (length [5%float])
   /\ NewGetisOrd [5%float] one_by_one = Panic DimensionMismatch
   /\ Setters.GetisOrd_Reset [5%float] one_by_one getisord1
      = (getisord1, Panic DimensionMismatch)
   /\ NilReset.GetisOrd_Reset (Some [5%float]) (Some one_by_one) getisord1
      = (getisord1, Panic DimensionMismatch))
  \/ (Dims one_by_one = (length [5%float], length [5%float])
      /\ exists g' : GetisOrd float,
           NewGetisOrd [5%float] one_by_one = Ok g'
           /\ Setters.GetisOrd_Reset [5%float] one_by_one getisord1 = (g', Ok tt)
           /\ NilReset.GetisOrd_Reset (Some [5%float]) (Some one_by_one) getisord1
              = (g', Ok tt)).
Proof.
  apply (GetisOrd_Reset_all_or_nothing [5%float] one_by_one getisord1).
  apply (reach_NewGetisOrd [3%float] one_by_one). vm_compute. reflexivity.
Defined.

(** X8: on engines kept by the package, [SetData(data)] (and
    [Reset(data, nil)]) returns exactly when [len(data)] is the held number of
    observations; then the held data is [data], the locality is untouched and
    the cached moments are those of [data]; otherwise it panics and the
    engine is unchanged. *)
Theorem SetData_outcome {F : Type} `{Arith F}
    (data : list F) (g : GetisOrd F) (m : Moran F) :
  Moran_inv m -> GetisOrd_inv g ->
  (if length data =? length (m_data m)
   then Setters.Moran_SetData data m
        = ({| m_data := data; m_mean := Mean data;
              m_locality := m_locality m |}, Ok tt)
   else Setters.Moran_SetData data m = (m, Panic DimensionMismatch))
  /\ (if length data =? length (g_data g)
      then Setters.GetisOrd_SetData data g
           = ({| g_data := data;
                 g_locality := g_locality g;
                 g_mean := Mean data;
                 g_s := (sum_squares data / of_int (Z.of_nat (length data))
                         - Mean data * Mean data)%f64 |}, Ok tt)
      else Setters.GetisOrd_SetData data g = (g, Panic DimensionMismatch))
  /\ NilReset.Moran_Reset (Some data) None m = Setters.Moran_SetData data m
  /\ NilReset.GetisOrd_Reset (Some data) None g
     = Setters.GetisOrd_SetData data g.
Proof.
  intros Hm Hg. split; [|split; [|split; reflexivity]].
  - destruct (length data =? length (m_data m)) eqn:Hlen.
    + apply Nat.eqb_eq in Hlen. now apply Setters_Moran_SetData_ok.
    + apply Nat.eqb_neq in Hlen. apply (proj1 (SetData_rejected data g m)).
      destruct Hm as (Hdims & _). rewrite Hdims. left. cbn. congruence.
  - destruct (length data =? length (g_data g)) eqn:Hlen.
    + apply Nat.eqb_eq in Hlen. now apply Setters_GetisOrd_SetData_ok.
    + apply Nat.eqb_neq in Hlen. apply (proj2 (SetData_rejected data g m)).
      destruct Hg as (Hdims & _). rewrite Hdims. left. cbn. congruence.
Qed.

Lemma SetData_outcome_witness :
  Setters.Moran_SetData [5%float] moran1
  = ({| m_data := [5%float]; m_mean := Mean [5%float];
        m_locality := m_locality moran1 |}, Ok tt)
  /\ Setters.GetisOrd_SetData [5%float; 6%float] getisord1
     = (getisord1, Panic DimensionMismatch).
Proof.
  assert (Hm : Moran_inv moran1) by (repeat split; vm_compute; reflexivity).
  assert (Hg : GetisOrd_inv getisord1) by (repeat split; vm_compute; reflexivity).
  split.
  - exact (proj1 (SetData_outcome [5%float] getisord1 moran1 Hm Hg)).
  - exact (proj1 (proj2 (SetData_outcome [5%float; 6%float] getisord1 moran1
                           Hm Hg))).
Defined.

(** X9: on engines kept by the package, [SetLocality(locality)] (and
    [Reset(nil, locality)]) returns exactly when [locality] is square of the
    held number of observations; then the held locality is the deep copy of
    [locality] and the data and the cached moments are untouched; otherwise
    it panics and the engine is unchanged. *)
Theorem SetLocality_outcome {F : Type} `{Arith F}
    (locality : Matrix F) (g : GetisOrd F) (m : Moran F) :
  Moran_inv m -> GetisOrd_inv g ->
  (if mismatch (Dims locality) (length (m_data m))
   then Setters.Moran_SetLocality locality m = (m, Panic DimensionMismatch)
   else Setters.Moran_SetLocality locality m
        = ({| m_data := m_data m; m_mean := m_mean m;
              m_locality := DenseCopyOf locality |}, Ok tt))
  /\ (if mismatch (Dims locality) (length (g_data g))
      then Setters.GetisOrd_SetLocality locality g
           = (g, Panic DimensionMismatch)
      else Setters.GetisOrd_SetLocality locality g
           = ({| g_data := g_data g; g_locality := DenseCopyOf locality;
                 g_mean := g_mean g; g_s := g_s g |}, Ok tt))
  /\ NilReset.Moran_Reset None (Some locality) m
     = Setters.Moran_SetLocality locality m
  /\ NilReset.GetisOrd_Reset None (Some locality) g
     = Setters.GetisOrd_SetLocality locality g.
Proof.
  intros Hm Hg. split; [|split; [|split; reflexivity]].
  - destruct (mismatch (Dims locality) (length (m_data m))) eqn:Hmis.
    + apply mismatch_true in Hmis.
      now apply (proj1 (SetLocality_rejected locality g m)).
    + apply mismatch_false in Hmis. now apply Setters_Moran_SetLocality_ok.
  - destruct (mismatch (Dims locality) (length (g_data g))) eqn:Hmis.
    + apply mismatch_true in Hmis.
      now apply (proj2 (SetLocality_rejected locality g m)).
    + apply mismatch_false in Hmis. now apply Setters_GetisOrd_SetLocality_ok.
Qed.

Lemma SetLocality_outcome_witness :
  Setters.Moran_SetLocality three_by_three moran1
  = (moran1, Panic DimensionMismatch)
  /\ Setters.GetisOrd_SetLocality one_by_one getisord1
     = ({| g_data := g_data getisord1; g_locality := DenseCopyOf one_by_one;
           g_mean := g_mean getisord1; g_s := g_s getisord1 |}, Ok tt).
Proof.
  assert (Hm : Moran_inv moran1) by (repeat split; vm_compute; reflexivity).
  assert (Hg : GetisOrd_inv getisord1) by (repeat split; vm_compute; reflexivity).
  split.
  - exact (proj1 (SetLocality_outcome three_by_three getisord1 moran1 Hm Hg)).
  - exact (proj1 (proj2 (SetLocality_outcome one_by_one getisord1 moran1 Hm Hg))).
Defined.

(** X10: on engines kept by the package, with [data] of the held length and
    [locality] square of that length, setting the data and the locality one
    after the other, in either order, leaves the engine that
    [Reset(data, locality)] leaves. *)
Theorem setters_compose_to_Reset {F : Type} `{Arith F}
    (data : list F) (locality : Matrix F) (g : GetisOrd F) (m : Moran F) :
  Moran_inv m -> GetisOrd_inv g ->
  length data = length (m_data m) ->
  length data = length (g_data g) ->
  Dims locality = (length data, length data) ->
  let m_reset := fst (Setters.Moran_Reset data locality m) in
  let g_reset := fst (Setters.GetisOrd_Reset data locality g) in
  fst (Setters.Moran_SetLocality locality (fst (Setters.Moran_SetData data m)))
  = m_reset
  /\ fst (Setters.Moran_SetData data (fst (Setters.Moran_SetLocality locality m)))
     = m_reset
  /\ fst (Setters.GetisOrd_SetLocality locality
            (fst (Setters.GetisOrd_SetData data g))) = g_reset
  /\ fst (Setters.GetisOrd_SetData data
            (fst (Setters.GetisOrd_SetLocality locality g))) = g_reset.
Proof.
  intros Hm Hg Hlenm Hleng Hdims m_reset g_reset.
  unfold m_reset, g_reset.
  rewrite Setters_Moran_Reset_ok, Setters_GetisOrd_Reset_ok by exact Hdims.
  assert (Hm1 : Moran_inv (fst (Setters.Moran_SetData data m)))
    by now apply Setters_Moran_SetData_inv.
  assert (Hm2 : Moran_inv (fst (Setters.Moran_SetLocality locality m)))
    by now apply Setters_Moran_SetLocality_inv.
  assert (Hg1 : GetisOrd_inv (fst (Setters.GetisOrd_SetData data g)))
    by now apply Setters_GetisOrd_SetData_inv.
  assert (Hg2 : GetisOrd_inv (fst (Setters.GetisOrd_SetLocality locality g)))
    by now apply Setters_GetisOrd_SetLocality_inv.
  rewrite (Setters_Moran_SetData_ok data m Hm Hlenm) in *.
  rewrite (Setters_GetisOrd_SetData_ok data g Hg Hleng) in *.
  rewrite (Setters_Moran_SetLocality_ok locality m Hm) in *
    by (rewrite <- Hlenm; exact Hdims).
  rewrite (Setters_GetisOrd_SetLocality_ok locality g Hg) in *
    by (rewrite <- Hleng; exact Hdims).
  cbn [fst] in *.
  rewrite (Setters_Moran_SetLocality_ok locality _ Hm1) by exact Hdims.
  rewrite (Setters_Moran_SetData_ok data _ Hm2) by (cbn; congruence).
  rewrite (Setters_GetisOrd_SetLocality_ok locality _ Hg1) by exact Hdims.
  rewrite (Setters_GetisOrd_SetData_ok data _ Hg2) by (cbn; congruence).
  now repeat split.
Qed.

Lemma setters_compose_to_Reset_witness :
  fst (Setters.Moran_SetLocality one_by_one
         (fst (Setters.Moran_SetData [5%float] moran1)))
  = fst (Setters.Moran_Reset [5%float] one_by_one moran1)
  /\ fst (Setters.GetisOrd_SetData [5%float]
            (fst (Setters.GetisOrd_SetLocality one_by_one getisord1)))
     = fst (Setters.GetisOrd_Reset [5%float] one_by_one getisord1).
Proof.
  assert (Hm : Moran_inv moran1) by (repeat split; vm_compute; reflexivity).
  assert (Hg : GetisOrd_inv getisord1) by (repeat split; vm_compute; reflexivity).
  destruct (setters_compose_to_Reset [5%float] one_by_one getisord1 moran1
              Hm Hg eq_refl eq_refl eq_refl) as (H1 & _ & _ & H4).
  split; [exact H1 | exact H4].
Defined.

(** X11: on a [GetisOrd] engine kept by the package, [Len()] is the number of
    rows and of columns of the held locality, and [Gstar(i)] returns exactly
    for [0 <= i < Len()]; outside that range it panics on the row access. *)
Theorem Gstar_returns_iff_in_range {F : Type} `{Arith F} {L : Library F}
    (g : GetisOrd F) (i : Z) :
  GetisOrd_inv g ->
  Dense_Dims (g_locality g) = (Z.to_nat (GetisOrd_Len g), Z.to_nat (GetisOrd_Len g))
  /\ ((0 <= i < GetisOrd_Len g)%Z -> exists z, GetisOrd_Gstar g i = Ok z)
  /\ (~ (0 <= i < GetisOrd_Len g)%Z -> GetisOrd_Gstar g i = Panic ErrRowAccess).
Proof.
  intros (Hdims & Hwf & _). unfold GetisOrd_Len, Vector_Len.
  rewrite Nat2Z.id. split; [exact Hdims|].
  injection Hdims as Hrows Hcols. split.
  - intros Hi.
    destruct (Dense_RowView_ok (g_locality g) i Hwf) as (v & Hv & Hlen & _);
      [rewrite Hrows; exact Hi|].
    destruct (Dot_returns v (g_data g)) as (d1 & Hd1); [congruence|].
    destruct (Dot_returns v v eq_refl) as (d2 & Hd2).
    unfold GetisOrd_Gstar. rewrite Hv. cbn [bind].
    rewrite Hd1, Hd2. cbn [bind]. eauto.
  - intros Hi. unfold GetisOrd_Gstar, Dense_RowView. rewrite Hrows.
    replace ((i <? 0)%Z || (Z.of_nat (length (g_data g)) <=? i)%Z) with true;
      [reflexivity|].
    symmetry. apply orb_true_iff.
    destruct (Z.ltb_spec i 0); [now left|right]. apply Z.leb_le. lia.
Qed.

Lemma Gstar_returns_iff_in_range_witness :
  (exists z, GetisOrd_Gstar getisord10 9 = Ok z)
  /\ GetisOrd_Gstar getisord10 10 = Panic ErrRowAccess
  /\ GetisOrd_Gstar getisord10 (-1) = Panic ErrRowAccess.
Proof.
  assert (Hg : GetisOrd_inv getisord10) by (repeat split; vm_compute; reflexivity).
  split; [|split].
  - apply (proj1 (proj2 (Gstar_returns_iff_in_range getisord10 9 Hg))).
    cbn. lia.
  - apply (proj2 (proj2 (Gstar_returns_iff_in_range getisord10 10 Hg))).
    cbn. lia.
  - apply (proj2 (proj2 (Gstar_returns_iff_in_range getisord10 (-1) Hg))).
    cbn. lia.
Defined.

(** ** Binary64 arithmetic: zeros, infinities and NaN *)

Lemma zero_or_nan_cases (z : float) :
  zero_or_nan z -> z = 0%float \/ z = neg_zero \/ z = nan.
Proof.
  unfold zero_or_nan. intros Hz. rewrite <- (SF2Prim_Prim2SF z).
  destruct (Prim2SF z) as [[|] | s | | s m e]; try contradiction; auto.
Qed.

Lemma inf_or_nan_cases (v : float) :
  inf_or_nan v -> v = infinity \/ v = neg_infinity \/ v = nan.
Proof.
  unfold inf_or_nan. intros Hv. rewrite <- (SF2Prim_Prim2SF v).
  destruct (Prim2SF v) as [s | [|] | | s m e]; try contradiction; auto.
Qed.

Lemma nan_zero_or_nan : zero_or_nan nan.
Proof. exact I. Qed.

Lemma zero_zero_or_nan : zero_or_nan 0.
Proof. exact I. Qed.

Lemma is_zero_zero_or_nan (x : float) : is_zero x = true -> zero_or_nan x.
Proof.
  unfold is_zero, zero_or_nan. rewrite FloatAxioms.eqb_spec.
  change (Prim2SF PrimFloat.zero) with (S754_zero false).
  destruct (Prim2SF x) as [s | [|] | | [|] m e]; cbn; intros Hx;
    try exact I; discriminate.
Qed.

Lemma add_zero_or_nan (a b : float) :
  zero_or_nan a -> zero_or_nan b -> zero_or_nan (a + b).
Proof.
  unfold zero_or_nan. rewrite add_spec.
  destruct (Prim2SF a) as [[|] | s | | s m e]; try contradiction;
    destruct (Prim2SF b) as [[|] | s' | | s' m' e']; try contradiction; auto.
Qed.

Lemma sub_zero_or_nan (a b : float) :
  zero_or_nan a -> zero_or_nan b -> zero_or_nan (a - b).
Proof.
  unfold zero_or_nan. rewrite sub_spec.
  destruct (Prim2SF a) as [[|] | s | | s m e]; try contradiction;
    destruct (Prim2SF b) as [[|] | s' | | s' m' e']; try contradiction; auto.
Qed.

Lemma mul_zero_or_nan_l (a b : float) : zero_or_nan a -> zero_or_nan (a * b).
Proof.
  unfold zero_or_nan. rewrite mul_spec.
  destruct (Prim2SF a) as [s | s | | s m e]; try contradiction;
    now destruct (Prim2SF b) as [s' | s' | | s' m' e'].
Qed.

Lemma mul_zero_or_nan_r (a b : float) : zero_or_nan b -> zero_or_nan (a * b).
Proof.
  unfold zero_or_nan. rewrite mul_spec.
  destruct (Prim2SF b) as [s | s | | s m e]; try contradiction;
    now destruct (Prim2SF a) as [s' | s' | | s' m' e'].
Qed.

Lemma div_zero_or_nan_l (a b : float) : zero_or_nan a -> zero_or_nan (a / b).
Proof.
  unfold zero_or_nan. rewrite div_spec.
  destruct (Prim2SF a) as [s | s | | s m e]; try contradiction;
    now destruct (Prim2SF b) as [s' | s' | | s' m' e'].
Qed.

Lemma sqrt_zero_or_nan (a : float) : zero_or_nan a -> zero_or_nan (PrimFloat.sqrt a).
Proof.
  unfold zero_or_nan. rewrite sqrt_spec.
  now destruct (Prim2SF a) as [s | s | | s m e].
Qed.

Lemma div_zero_zero (a b : float) :
  zero_or_nan a -> zero_or_nan b -> (a / b)%float = nan.
Proof.
  unfold zero_or_nan. intros Ha Hb. apply Prim2SF_nan. rewrite div_spec.
  destruct (Prim2SF a) as [s | s | | s m e]; try contradiction;
    now destruct (Prim2SF b) as [s' | s' | | s' m' e'].
Qed.

Lemma div_by_zero_or_nan (r c : float) : zero_or_nan c -> inf_or_nan (r / c).
Proof.
  unfold zero_or_nan, inf_or_nan. rewrite div_spec.
  destruct (Prim2SF c) as [s | s | | s m e]; try contradiction;
    now destruct (Prim2SF r) as [s' | s' | | s' m' e'].
Qed.

Lemma sub_inf_or_nan_l (a b : float) : inf_or_nan a -> inf_or_nan (a - b).
Proof.
  unfold inf_or_nan. rewrite sub_spec.
  destruct (Prim2SF a) as [s | [|] | | s m e]; try contradiction;
    now destruct (Prim2SF b) as [s' | [|] | | s' m' e'].
Qed.

Lemma div_by_pos_inf_or_nan (x t : float) :
  pos_inf_or_nan t -> zero_or_nan (x / t).
Proof.
  unfold pos_inf_or_nan, zero_or_nan. rewrite div_spec.
  destruct (Prim2SF t) as [s | [|] | | s m e]; try contradiction;
    now destruct (Prim2SF x) as [s' | s' | | s' m' e'].
Qed.

Lemma add_nan_l (x : float) : (nan + x)%float = nan.
Proof.
  apply Prim2SF_nan. rewrite add_spec. change (Prim2SF nan) with S754_nan.
  reflexivity.
Qed.

Lemma add_nan_r (x : float) : (x + nan)%float = nan.
Proof.
  apply Prim2SF_nan. rewrite add_spec. change (Prim2SF nan) with S754_nan.
  now destruct (Prim2SF x).
Qed.

Lemma sub_nan_l (x : float) : (nan - x)%float = nan.
Proof.
  apply Prim2SF_nan. rewrite sub_spec. change (Prim2SF nan) with S754_nan.
  reflexivity.
Qed.

Lemma sub_nan_r (x : float) : (x - nan)%float = nan.
Proof.
  apply Prim2SF_nan. rewrite sub_spec. change (Prim2SF nan) with S754_nan.
  now destruct (Prim2SF x).
Qed.

Lemma mul_nan_l (x : float) : (nan * x)%float = nan.
Proof.
  apply Prim2SF_nan. rewrite mul_spec. change (Prim2SF nan) with S754_nan.
  reflexivity.
Qed.

Lemma mul_nan_r (x : float) : (x * nan)%float = nan.
Proof.
  apply Prim2SF_nan. rewrite mul_spec. change (Prim2SF nan) with S754_nan.
  now destruct (Prim2SF x).
Qed.

Lemma div_nan_l (x : float) : (nan / x)%float = nan.
Proof.
  apply Prim2SF_nan. rewrite div_spec. change (Prim2SF nan) with S754_nan.
  reflexivity.
Qed.

Create HintDb f64_zero.

#[local] Hint Resolve nan_zero_or_nan zero_zero_or_nan is_zero_zero_or_nan
  add_zero_or_nan sub_zero_or_nan mul_zero_or_nan_l mul_zero_or_nan_r
  div_zero_or_nan_l sqrt_zero_or_nan : f64_zero.

(** ** Sums that stay in a class of values *)

Lemma fold_left_add_closed {F : Type} `{Arith F} (P : F -> Prop)
    (terms : list F) (a : F) :
  P a -> (forall a t, P a -> In t terms -> P (a + t)%f64) ->
  P (fold_left add terms a).
Proof.
  revert a. induction terms as [|t terms IH]; intros a Ha Hstep; [exact Ha|].
  cbn [fold_left]. apply IH.
  - apply Hstep; [exact Ha | now left].
  - intros a' t' Ha' Ht'. apply Hstep; [exact Ha' | now right].
Qed.

Lemma in_tabulate {F : Type} (r c : nat) (f : nat -> nat -> F) (t : F) :
  In t (tabulate r c f) -> exists i j, i < r /\ j < c /\ t = f i j.
Proof.
  unfold tabulate. intros Ht. apply in_flat_map in Ht.
  destruct Ht as (i & Hi & Ht). apply in_map_iff in Ht.
  destruct Ht as (j & <- & Hj). apply in_seq in Hi. apply in_seq in Hj.
  exists i, j. repeat split; lia.
Qed.

Lemma running_sum_zero_or_nan (terms : list float) :
  (forall t, In t terms -> zero_or_nan t) -> zero_or_nan (running_sum terms).
Proof.
  intros Hterms. unfold running_sum.
  apply (fold_left_add_closed zero_or_nan); [exact I|].
  intros a t Ha Ht. float_ops. auto with f64_zero.
Qed.

Lemma running_sum_map_zero_or_nan (n : nat) (t : nat -> float) :
  (forall i, i < n -> zero_or_nan (t i)) ->
  zero_or_nan (running_sum (map t (seq 0 n))).
Proof.
  intros Ht. apply running_sum_zero_or_nan. intros v Hv.
  apply in_map_iff in Hv. destruct Hv as (i & <- & Hi). apply in_seq in Hi.
  apply Ht. lia.
Qed.

Lemma running_sum_tabulate_zero_or_nan (r c : nat) (t : nat -> nat -> float) :
  (forall i j, i < r -> j < c -> zero_or_nan (t i j)) ->
  zero_or_nan (running_sum (tabulate r c t)).
Proof.
  intros Ht. apply running_sum_zero_or_nan. intros v Hv.
  apply in_tabulate in Hv. destruct Hv as (i & j & Hi & Hj & ->). now apply Ht.
Qed.

Lemma fold_left_add_nan (terms : list float) :
  fold_left PrimFloat.add terms nan = nan.
Proof.
  refine (fold_left_add_closed (F := float) (fun a => a = nan) terms nan
            eq_refl _).
  intros a t -> _. apply add_nan_l.
Qed.

Lemma running_sum_has_nan (terms : list float) :
  In nan terms -> running_sum terms = nan.
Proof.
  intros Hin. apply in_split in Hin. destruct Hin as (l1 & l2 & ->).
  unfold running_sum. rewrite fold_left_app. cbn [fold_left]. float_ops.
  rewrite add_nan_r. apply fold_left_add_nan.
Qed.

Lemma running_sum_map_nan (n : nat) (t : nat -> float) :
  0 < n -> (forall i, i < n -> t i = nan) ->
  running_sum (map t (seq 0 n)) = nan.
Proof.
  intros Hn Ht. apply running_sum_has_nan. apply in_map_iff.
  exists 0. split; [now apply Ht|]. apply in_seq. lia.
Qed.

(** ** Binary64 arithmetic: a NaN among the observations *)

Lemma Mean_has_nan (x : list float) : In nan x -> Mean x = nan.
Proof.
  intros Hin. unfold Mean, floats_Sum.
  rewrite (running_sum_has_nan x Hin : fold_left add x zero = nan).
  apply div_nan_l.
Qed.

Lemma I_loop_nan_mean (w : nat -> nat -> float) (x : list float) :
  0 < length x -> snd (I_loop w x nan) = nan.
Proof.
  intros Hlen. rewrite I_loop_running. cbn [snd].
  apply running_sum_map_nan; [exact Hlen|].
  intros i _. float_ops. now rewrite sub_nan_r, mul_nan_l.
Qed.

Lemma Var_loop_nan_mean (w : nat -> nat -> float) (x : list float) :
  0 < length x ->
  exists s0 s1 s2 var4 : float, Var_loop w x nan = (s0, s1, s2, nan, var4).
Proof.
  intros Hlen. rewrite Var_loop_running.
  do 4 eexists. f_equal. f_equal.
  apply running_sum_map_nan; [exact Hlen|].
  intros i _. float_ops. now rewrite sub_nan_r, mul_nan_l.
Qed.

Lemma Var_of_sums_nan (n e s0 s1 s2 var4 : float) :
  Var_of_sums n e (s0, s1, s2, nan, var4) = nan.
Proof.
  unfold Var_of_sums. float_ops.
  now rewrite (mul_nan_l nan), div_nan_r, mul_nan_l, sub_nan_r, div_nan_l,
    sub_nan_l.
Qed.

Lemma in_length_pos {A : Type} (a : A) (l : list A) : In a l -> 0 < length l.
Proof. destruct l; [contradiction | cbn; lia]. Qed.

(** X17: a NaN among the observations of a [Moran] engine makes [I()],
    [Var()] and [Z()] all return NaN. *)
Theorem Moran_NaN_observation (m : Moran float) :
  Moran_inv m -> In nan (m_data m) ->
  Moran_I m = Ok nan /\ Moran_Var m = Ok nan /\ Moran_Z m = Ok nan.
Proof.
  intros (Hdims & Hwf & Hmean) Hin.
  pose proof (in_length_pos _ _ Hin) as Hlen.
  rewrite (Mean_has_nan _ Hin) in Hmean.
  assert (HI : Moran_I m = Ok nan).
  { rewrite (Moran_I_loop m Hdims), Hmean.
    pose proof (I_loop_nan_mean (entry (Dense_Matrix (m_locality m)))
                  (m_data m) Hlen) as Hden.
    destruct (I_loop _ _ _) as [num den]. cbn [snd] in Hden. subst den.
    float_ops. now rewrite mul_nan_r, div_nan_r. }
  assert (HV : Moran_Var m = Ok nan).
  { rewrite (Moran_Var_loop m Hdims), Hmean.
    destruct (Var_loop_nan_mean (entry (Dense_Matrix (m_locality m)))
                (m_data m) Hlen) as (s0 & s1 & s2 & var4 & ->).
    now rewrite Var_of_sums_nan. }
  split; [exact HI|]. split; [exact HV|].
  unfold Moran_Z. rewrite HI, HV. cbn [bind]. float_ops.
  change (PrimFloat.sqrt nan) with nan. now rewrite div_nan_r.
Qed.

Lemma Moran_NaN_observation_witness :
  let m := {| m_data := [1; nan; 3]%float;
              m_mean := Mean [1; nan; 3]%float;
              m_locality := DenseCopyOf three_by_three |} in
  Moran_I m = Ok nan /\ Moran_Var m = Ok nan /\ Moran_Z m = Ok nan.
Proof.
  apply (Moran_NaN_observation
           {| m_data := [1; nan; 3]%float;
              m_mean := Mean [1; nan; 3]%float;
              m_locality := DenseCopyOf three_by_three |}).
  - repeat split; vm_compute; reflexivity.
  - cbn. auto.
Defined.

(** X18: a NaN among the observations of a [GetisOrd] engine makes
    [Gstar(i)] return NaN at every point [i]. *)
Theorem GetisOrd_NaN_observation {L : Library float}
    (g : GetisOrd float) (i : Z) :
  GetisOrd_inv g -> In nan (g_data g) ->
  (0 <= i < Z.of_nat (length (g_data g)))%Z ->
  GetisOrd_Gstar g i = Ok nan.
Proof.
  intros (Hdims & Hwf & Hmean & Hs) Hin Hi.
  injection Hdims as Hrows Hcols.
  rewrite (Mean_has_nan _ Hin) in Hmean.
  destruct (Dense_RowView_ok (g_locality g) i Hwf) as (v & Hv & Hlen & _);
    [rewrite Hrows; exact Hi|].
  rewrite Hcols in Hlen.
  destruct (Dot_returns v (g_data g) Hlen) as (d1 & Hd1).
  destruct (Dot_returns v v eq_refl) as (d2 & Hd2).
  unfold GetisOrd_Gstar. rewrite Hv. cbn [bind]. rewrite Hd1, Hd2. cbn [bind].
  rewrite Hmean. float_ops. now rewrite mul_nan_l, sub_nan_r, div_nan_l.
Qed.

Lemma GetisOrd_NaN_observation_witness :
  let data := [1; nan; 3]%float in
  let g := {| g_data := data;
              g_locality := DenseCopyOf three_by_three;
              g_mean := Mean data;
              g_s := (sum_squares data / of_int 3 - Mean data * Mean data)%f64 |} in
  GetisOrd_Gstar g 2 = Ok nan.
Proof.
  apply (GetisOrd_NaN_observation
           {| g_data := [1; nan; 3]%float;
              g_locality := DenseCopyOf three_by_three;
              g_mean := Mean [1; nan; 3]%float;
              g_s := (sum_squares [1; nan; 3]%float / of_int 3
                      - Mean [1; nan; 3]%float * Mean [1; nan; 3]%float)%f64 |}
           2%Z).
  - repeat split; vm_compute; reflexivity.
  - cbn. auto.
  - cbn. lia.
Defined.

(** ** Binary64 arithmetic: fewer than four observations, and no neighbours *)

Lemma Var_of_sums_non_finite (n e s0 s1 s2 var2 var4 : float) :
  zero_or_nan ((n - of_int 1) * (n - of_int 2) * (n - of_int 3) * s0 * s0)%f64 ->
  inf_or_nan (Var_of_sums n e (s0, s1, s2, var2, var4)).
Proof.
  intros Hc. unfold Var_of_sums. float_ops.
  now apply sub_inf_or_nan_l, div_by_zero_or_nan.
Qed.

Lemma Var_loop_nil {F : Type} `{Arith F} (w : nat -> nat -> F) (mean : F) :
  Var_loop w [] mean = (zero, zero, zero, zero, zero).
Proof. reflexivity. Qed.

Lemma Moran_Z_of_I_Var {F : Type} `{Arith F} (m : Moran F) (i v : F) :
  Moran_I m = Ok i -> Moran_Var m = Ok v ->
  Moran_Z m = Ok ((i - Moran_E m) / sqrt v)%f64.
Proof. intros HI HV. unfold Moran_Z. now rewrite HI, HV. Qed.

Lemma Moran_I_returns {F : Type} `{Arith F} (m : Moran F) :
  Moran_inv m -> exists i, Moran_I m = Ok i.
Proof. intros (Hdims & _). rewrite (Moran_I_loop m Hdims). now eexists. Qed.

(** X19: with fewer than four observations [Var()] never returns a finite
    value, and [Z()] returns a zero or NaN. *)
Theorem Moran_fewer_than_four (m : Moran float) :
  Moran_inv m -> length (m_data m) < 4 ->
  exists v z : float,
    Moran_Var m = Ok v
    /\ (v = infinity \/ v = neg_infinity \/ v = nan)
    /\ Moran_Z m = Ok z
    /\ (z = 0%float \/ z = neg_zero \/ z = nan).
Proof.
  intros Hinv Hlt.
  destruct (Moran_I_returns m Hinv) as (i & HI).
  destruct Hinv as (Hdims & Hwf & Hmean).
  pose proof (Moran_Var_loop m Hdims) as HV.
  assert (Hv : exists v, Moran_Var m = Ok v /\ inf_or_nan v).
  { rewrite HV. eexists. split; [reflexivity|].
    destruct (m_data m) as [|x0 [|x1 [|x2 [|x3 l]]]];
      cbn [length] in Hlt |- *; try lia.
    - rewrite Var_loop_nil. apply Var_of_sums_non_finite. float_ops.
      apply mul_zero_or_nan_r. exact I.
    - destruct (Var_loop _ _ _) as [[[[s0 s1] s2] var2] var4].
      apply Var_of_sums_non_finite. float_ops.
      apply mul_zero_or_nan_l, mul_zero_or_nan_l. exact I.
    - destruct (Var_loop _ _ _) as [[[[s0 s1] s2] var2] var4].
      apply Var_of_sums_non_finite. float_ops.
      apply mul_zero_or_nan_l, mul_zero_or_nan_l. exact I.
    - destruct (Var_loop _ _ _) as [[[[s0 s1] s2] var2] var4].
      apply Var_of_sums_non_finite. float_ops.
      apply mul_zero_or_nan_l, mul_zero_or_nan_l. exact I. }
  destruct Hv as (v & Hv & Hclass).
  exists v. eexists. split; [exact Hv|].
  split; [now apply inf_or_nan_cases|].
  split; [exact (Moran_Z_of_I_Var m i v HI Hv)|].
  apply zero_or_nan_cases. float_ops.
  now apply div_by_pos_inf_or_nan, sqrt_inf_or_nan.
Qed.

Lemma Moran_fewer_than_four_witness :
  exists v z : float,
    Moran_Var moran3 = Ok v
    /\ (v = infinity \/ v = neg_infinity \/ v = nan)
    /\ Moran_Z moran3 = Ok z
    /\ (z = 0%float \/ z = neg_zero \/ z = nan).
Proof.
  apply (Moran_fewer_than_four moran3).
  - repeat split; vm_compute; reflexivity.
  - cbn. lia.
Defined.

Lemma Var_of_sums_no_weight (n e s0 s1 s2 var2 var4 : float) :
  zero_or_nan s0 -> zero_or_nan s1 -> zero_or_nan s2 ->
  Var_of_sums n e (s0, s1, s2, var2, var4) = nan.
Proof.
  intros H0 H1 H2. unfold Var_of_sums. float_ops.
  rewrite (div_zero_zero _ ((n - of_int 1) * (n - of_int 2) * (n - of_int 3)
                            * s0 * s0)%float).
  - apply sub_nan_l.
  - auto 8 with f64_zero.
  - auto with f64_zero.
Qed.

(** X20: when every weight of the locality is a zero, no point having a
    neighbour, [I()], [Var()] and [Z()] all return NaN. *)
Theorem Moran_no_neighbours (m : Moran float) :
  Moran_inv m ->
  (forall i j, i < length (m_data m) -> j < length (m_data m) ->
     is_zero (entry (Dense_Matrix (m_locality m)) i j) = true) ->
  Moran_I m = Ok nan /\ Moran_Var m = Ok nan /\ Moran_Z m = Ok nan.
Proof.
  intros (Hdims & Hwf & Hmean) Hw.
  assert (Hz : forall i j, i < length (m_data m) -> j < length (m_data m) ->
            zero_or_nan (entry (Dense_Matrix (m_locality m)) i j))
    by auto with f64_zero.
  assert (HI : Moran_I m = Ok nan).
  { rewrite (Moran_I_loop m Hdims), I_loop_running, Sum_running.
    cbn [Dense_Matrix Dims]. rewrite Hdims. cbn [fst snd]. f_equal.
    float_ops. apply div_zero_zero.
    - apply mul_zero_or_nan_r, running_sum_tabulate_zero_or_nan.
      intros i j Hi Hj. float_ops. auto with f64_zero.
    - apply mul_zero_or_nan_l, running_sum_tabulate_zero_or_nan.
      intros i j Hi Hj. now apply Hz. }
  assert (HV : Moran_Var m = Ok nan).
  { rewrite (Moran_Var_loop m Hdims), Var_loop_running. f_equal.
    apply Var_of_sums_no_weight.
    - apply running_sum_tabulate_zero_or_nan. intros i j Hi Hj. now apply Hz.
    - apply running_sum_tabulate_zero_or_nan. intros i j Hi Hj. float_ops.
      auto with f64_zero.
    - apply running_sum_map_zero_or_nan. intros i Hi. float_ops.
      apply mul_zero_or_nan_l, running_sum_map_zero_or_nan.
      intros j Hj. float_ops. auto with f64_zero. }
  split; [exact HI|]. split; [exact HV|].
  rewrite (Moran_Z_of_I_Var m nan nan HI HV). float_ops. f_equal.
  change (PrimFloat.sqrt nan) with nan. apply div_nan_r.
Qed.

Lemma Moran_no_neighbours_witness :
  let m := {| m_data := [1; 2; 4]%float;
              m_mean := Mean [1; 2; 4]%float;
              m_locality := DenseCopyOf three_by_three |} in
  Moran_I m = Ok nan /\ Moran_Var m = Ok nan /\ Moran_Z m = Ok nan.
Proof.
  apply (Moran_no_neighbours
           {| m_data := [1; 2; 4]%float;
              m_mean := Mean [1; 2; 4]%float;
              m_locality := DenseCopyOf three_by_three |}).
  - repeat split; vm_compute; reflexivity.
  - intros [|[|[|i]]] [|[|[|j]]] Hi Hj; cbn in Hi, Hj; try lia; reflexivity.
Defined.

(** X21: [Gstar(i)] returns NaN at a point [i] whose row of the locality
    holds only zeros. *)
Theorem GetisOrd_no_neighbours {L : Library float}
    (g : GetisOrd float) (i : Z) :
  GetisOrd_inv g ->
  (0 <= i < Z.of_nat (length (g_data g)))%Z ->
  (forall j, j < length (g_data g) ->
     is_zero (entry (Dense_Matrix (g_locality g)) (Z.to_nat i) j) = true) ->
  GetisOrd_Gstar g i = Ok nan.
Proof.
  intros (Hdims & Hwf & Hmean & Hs) Hi Hw.
  injection Hdims as Hrows Hcols.
  destruct (Dense_RowView_ok (g_locality g) i Hwf) as (v & Hv & Hlen & Hnth);
    [rewrite Hrows; exact Hi|].
  rewrite Hcols in Hlen, Hnth.
  assert (Hz : forall j, j < length v -> zero_or_nan (nth j v 0%float)).
  { intros j Hj. rewrite Hlen in Hj.
    rewrite (Hnth j Hj : nth j v 0%float = _). auto with f64_zero. }
  assert (Hdot : forall x : list float, length v = length x ->
            exists d : float, Dot v x = Ok d /\ zero_or_nan d).
  { intros x Hx. destruct (Dot_summed v x Hx) as (d & Hd & Hsum).
    exists d. split; [exact Hd|].
    apply (summed_closed zero_or_nan (products v x) d); [exact I | | | exact Hsum].
    - intros a b Ha Hb. float_ops. auto with f64_zero.
    - intros t Ht. apply in_map_iff in Ht. destruct Ht as ([a b] & <- & Hab).
      cbn [fst snd]. float_ops. apply mul_zero_or_nan_l.
      apply (In_nth _ _ (0%float, 0%float)) in Hab.
      destruct Hab as (k & Hk & Hab). rewrite length_combine in Hk.
      rewrite combine_nth in Hab by exact Hx. injection Hab as <- _.
      apply Hz. lia. }
  destruct (Hdot (g_data g) Hlen) as (d1 & Hd1 & Hz1).
  destruct (Hdot v eq_refl) as (d2 & Hd2 & Hz2).
  unfold GetisOrd_Gstar. rewrite Hv. cbn [bind]. rewrite Hd1, Hd2. cbn [bind].
  rewrite Sum_Vector_running. f_equal.
  assert (Hsum : zero_or_nan
            (running_sum (map (fun j => nth j v zero) (seq 0 (length v)))))
    by (apply running_sum_map_zero_or_nan; exact Hz).
  float_ops. apply div_zero_zero; auto 8 with f64_zero.
Qed.

Lemma GetisOrd_no_neighbours_witness :
  let data := [1; 2; 4]%float in
  let g := {| g_data := data;
              g_locality := DenseCopyOf lonely3;
              g_mean := Mean data;
              g_s := (sum_squares data / of_int 3 - Mean data * Mean data)%f64 |} in
  GetisOrd_Gstar g 2 = Ok nan.
Proof.
  apply (GetisOrd_no_neighbours
           {| g_data := [1; 2; 4]%float;
              g_locality := DenseCopyOf lonely3;
              g_mean := Mean [1; 2; 4]%float;
              g_s := (sum_squares [1; 2; 4]%float / of_int 3
                      - Mean [1; 2; 4]%float * Mean [1; 2; 4]%float)%f64 |}
           2%Z).
  - repeat split; vm_compute; reflexivity.
  - cbn. lia.
  - intros [|[|[|j]]] Hj; cbn in Hj; try lia; reflexivity.
Defined.
